(** * The ingestion and normalization pipeline of the Hemobras dashboards

    A shallow embedding of the three Streamlit pages
    [1_Aquisições_MS.py], [2_Emicizumabe.py] and [Hemo_8R.py]: the CSV
    loaders, the locale clean-up of quantities, the month/year period
    parser, the wide-to-long reshape and the top-N ranking.

    Modelling conventions.
    - A Python [str] is a [string] holding its UTF-8 bytes, so that [ç] is
      the two bytes C3 A7; substring operations on UTF-8 agree with the
      same operations on code points.  [str.lower] is modelled on the
      ASCII and Latin-1 letters, and the digits of the pattern and of the
      numerals are the ASCII ones.
    - A float64 is the exact rational it denotes, or one of the two
      infinities, or NaN; rounding and overflow of float64 and of int64 are
      outside the model.
    - A [DataFrame] read with [dtype=str] is an ordered list of named
      columns of text cells, a missing cell being [NA]. *)

From Stdlib Require Import List String Ascii Bool ZArith QArith Qreduction Lia.
From Stdlib Require Import Permutation Sorted.
From Stdlib Require OrderedTypeEx.
Import ListNotations.

Local Open Scope string_scope.
Local Open Scope Z_scope.

(** ** Exceptions and results *)

(** The exceptions the pages can meet.  [KeyError] keeps the label that
    was not found and [ValueError] raised by [melt] the label that was
    already there, in place of the message pandas builds around them. *)
Inductive exn : Type :=
| KeyError (key : string)
| IntCastingNaNError
| ParserError (path : string)
| RuntimeError (msg : string)
| ValueError (msg : string)
| TypeError (msg : string)
| AttributeError (msg : string)
| OverflowError (msg : string).

Inductive result (A : Type) : Type :=
| Ok (a : A)
| Raise (e : exn).

Arguments Ok {A} a.
Arguments Raise {A} e.

Definition bind {A B : Type} (m : result A) (k : A -> result B) : result B :=
  match m with
  | Ok a => k a
  | Raise e => Raise e
  end.

Notation "x <- m ;; k" := (bind m (fun x => k))
  (at level 61, m at next level, right associativity).

Fixpoint mapM {A B : Type} (f : A -> result B) (l : list A) : result (list B) :=
  match l with
  | [] => Ok []
  | a :: l' => b <- f a ;; bs <- mapM f l' ;; Ok (b :: bs)
  end.

(** ** Python string operations *)

Module PyStr.

Definition code (a : ascii) : N := N_of_ascii a.

Definition between (lo hi : N) (a : ascii) : bool :=
  ((lo <=? code a) && (code a <=? hi))%N.

Fixpoint starts_with (p s : string) : bool :=
  match p, s with
  | EmptyString, _ => true
  | String a p', String b s' => Ascii.eqb a b && starts_with p' s'
  | String _ _, EmptyString => false
  end.

Fixpoint rev_onto (acc s : string) : string :=
  match s with
  | EmptyString => acc
  | String a s' => rev_onto (String a acc) s'
  end.

Definition rev (s : string) : string := rev_onto EmptyString s.

(** [s.replace(old, new)] for a non-empty [old]: the occurrences are
    replaced from left to right without overlap.  [skip] counts the
    characters of a matched occurrence that are still to be dropped. *)
Fixpoint replace_from (old new : string) (skip : nat) (s : string) : string :=
  match s with
  | EmptyString => EmptyString
  | String a s' =>
      match skip with
      | S k => replace_from old new k s'
      | O =>
          if starts_with old s
          then new ++ replace_from old new (Nat.pred (String.length old)) s'
          else String a (replace_from old new O s')
      end
  end.

(** For an empty [old] Python inserts [new] around every character. *)
Fixpoint intersperse (new s : string) : string :=
  match s with
  | EmptyString => new
  | String a s' => new ++ String a (intersperse new s')
  end.

Definition replace (old new s : string) : string :=
  match old with
  | EmptyString => intersperse new s
  | String _ _ => replace_from old new O s
  end.

(** The characters [str.strip] removes: the ASCII ones are single
    bytes, the others are listed by their UTF-8 encoding (U+0085,
    U+00A0, U+1680, U+2000..U+200A, U+2028, U+2029, U+202F, U+205F,
    U+3000). *)
Definition ascii_space (a : ascii) : bool :=
  between 9 13 a || between 28 32 a.

Definition b (n : N) : ascii := ascii_of_N n.

Definition bytes (l : list N) : string :=
  fold_right (fun n s => String (b n) s) EmptyString l.

Definition wide_spaces : list string :=
  map bytes
    [ [194; 133]; [194; 160]; [225; 154; 128];
      [226; 128; 128]; [226; 128; 129]; [226; 128; 130]; [226; 128; 131];
      [226; 128; 132]; [226; 128; 133]; [226; 128; 134]; [226; 128; 135];
      [226; 128; 136]; [226; 128; 137]; [226; 128; 138];
      [226; 128; 168]; [226; 128; 169]; [226; 128; 175];
      [226; 129; 159]; [227; 128; 128] ]%N.

(** Length in bytes of the whitespace character that [s] starts with,
    [toks] being the multi-byte ones as they read in the direction of
    the scan. *)
Definition space_width (toks : list string) (s : string) : nat :=
  match s with
  | EmptyString => O
  | String a _ =>
      if ascii_space a then 1%nat
      else match find (fun t => starts_with t s) toks with
           | Some t => String.length t
           | None => O
           end
  end.

Fixpoint lstrip_from (toks : list string) (skip : nat) (s : string) : string :=
  match s with
  | EmptyString => EmptyString
  | String _ s' =>
      match skip with
      | S k => lstrip_from toks k s'
      | O =>
          match space_width toks s with
          | O => s
          | S k => lstrip_from toks k s'
          end
      end
  end.

Definition lstrip (s : string) : string := lstrip_from wide_spaces O s.

Definition rstrip (s : string) : string :=
  rev (lstrip_from (map rev wide_spaces) O (rev s)).

Definition strip (s : string) : string := rstrip (lstrip s).

(** [str.lower] on ASCII and on the Latin-1 capitals (U+00C0..U+00DE
    but U+00D7, encoded C3 80..C3 9E), which is where [Ç] lives. *)
Definition lower_ascii (a : ascii) : ascii :=
  if between 65 90 a then b (code a + 32) else a.

Definition lower_latin1 (a : ascii) : ascii :=
  if between 128 158 a && negb (code a =? 151)%N then b (code a + 32) else a.

Fixpoint lower_from (lead : bool) (s : string) : string :=
  match s with
  | EmptyString => EmptyString
  | String a s' =>
      if lead then String (lower_latin1 a) (lower_from false s')
      else String (lower_ascii a) (lower_from (code a =? 195)%N s')
  end.

Definition lower (s : string) : string := lower_from false s.

(** Python compares strings by code point, which on UTF-8 is the
    byte-wise order. *)
Definition ltb (s t : string) : bool :=
  match String.compare s t with Lt => true | _ => false end.

End PyStr.

(** ** Numbers as pandas reads them *)

Inductive num : Type :=
| NaN
| NegInf
| PosInf
| Fin (q : Q).

Module Num.

Definition isna (x : num) : bool :=
  match x with NaN => true | _ => false end.

(** [Series.fillna(0)] on one element. *)
Definition fillna0 (x : num) : num :=
  match x with NaN => Fin 0 | _ => x end.

Definition of_Z (z : Z) : num := Fin (inject_Z z).

(** The decimal [m * 10^e], in lowest terms. *)
Definition dec (m e : Z) : Q := Qred (inject_Z m * Qpower (10 # 1) e)%Q.

(** Float addition on exact values. *)
Definition add (x y : num) : num :=
  match x, y with
  | NaN, _ | _, NaN => NaN
  | PosInf, NegInf | NegInf, PosInf => NaN
  | PosInf, _ | _, PosInf => PosInf
  | NegInf, _ | _, NegInf => NegInf
  | Fin p, Fin q => Fin (Qred (p + q)%Q)
  end.

(** [Series.sum()], which skips missing values. *)
Definition sum (l : list num) : num :=
  fold_right add (Fin 0) (filter (fun x => negb (isna x)) l).

(** The integer part of a rational, toward zero. *)
Definition trunc (q : Q) : Z := Z.quot (Qnum q) (Zpos (Qden q)).

(** [astype(int)] on one float: truncation toward zero; NaN and the
    infinities raise. *)
Definition astype_int (x : num) : result Z :=
  match x with
  | Fin q => Ok (trunc q)
  | _ => Raise IntCastingNaNError
  end.

(** The order of [sort_values] on a float column: missing values come
    last. *)
Definition ltb (x y : num) : bool :=
  match x, y with
  | NaN, _ => false
  | _, NaN => true
  | NegInf, NegInf => false
  | NegInf, _ => true
  | _, NegInf => false
  | PosInf, _ => false
  | Fin _, PosInf => true
  | Fin p, Fin q => match Qcompare p q with Lt => true | _ => false end
  end.

(** *** The tokenizer behind [pd.to_numeric] *)

Definition is_digit (a : ascii) : bool := PyStr.between 48 57 a.

Definition digit_val (a : ascii) : Z := Z.of_N (PyStr.code a) - 48.

Definition isspace_ascii (a : ascii) : bool :=
  (PyStr.code a =? 32)%N || PyStr.between 9 13 a.

Fixpoint skip_spaces (s : string) : string :=
  match s with
  | String a s' => if isspace_ascii a then skip_spaces s' else s
  | EmptyString => s
  end.

(** An optional sign: [true] for a minus. *)
Definition sign (s : string) : bool * string :=
  match s with
  | String "-" s' => (true, s')
  | String "+" s' => (false, s')
  | _ => (false, s)
  end.

(** A run of digits continuing the value [v]; the count of digits read
    is returned with the new value and the rest. *)
Fixpoint digits (v : Z) (k : nat) (s : string) : Z * nat * string :=
  match s with
  | String a s' =>
      if is_digit a then digits (10 * v + digit_val a) (S k) s' else (v, k, s)
  | EmptyString => (v, k, s)
  end.

(** [xstrtod] with decimal ['.'], exponent mark ['E'] (either case), no
    thousands separator and trailing blanks skipped, followed by
    [to_double]'s test that the whole string was consumed. *)
Definition to_double (s : string) : option Q :=
  let s := skip_spaces s in
  let '(neg, s) := sign s in
  let '(v, n1, s) := digits 0 O s in
  let '(v, n2, s) :=
    match s with
    | String "." s' => digits v O s'
    | _ => (v, O, s)
    end in
  if Nat.eqb (n1 + n2) 0 then None
  else
    let mant := if neg then - v else v in
    let expo :=
      match s with
      | String a s' =>
          if Ascii.eqb a "e" || Ascii.eqb a "E" then
            let '(eneg, s1) := sign s' in
            let '(n, k, s2) := digits 0 O s1 in
            if Nat.eqb k 0 then None
            else Some ((if eneg then - n else n), s2)
          else Some (0, s)
      | EmptyString => Some (0, s)
      end in
    match expo with
    | None => None
    | Some (e, s) =>
        match skip_spaces s with
        | EmptyString => Some (dec mant (e - Z.of_nat n2))
        | String _ _ => None
        end
    end.

(** [floatify]: when [to_double] fails the spellings of infinity are
    accepted, compared without regard to case. *)
Definition floatify (s : string) : option num :=
  match to_double s with
  | Some q => Some (Fin q)
  | None =>
      let l := PyStr.lower s in
      if String.eqb l "inf" || String.eqb l "+inf"
         || String.eqb l "infinity" || String.eqb l "+infinity" then Some PosInf
      else if String.eqb l "-inf" || String.eqb l "-infinity" then Some NegInf
      else None
  end.

(** One string element under [pd.to_numeric(..., errors="coerce")]. *)
Definition to_numeric_str (s : string) : num :=
  match s with
  | EmptyString => NaN
  | _ => match floatify s with Some x => x | None => NaN end
  end.

(** [int(x)] of a float: NaN and the infinities raise. *)
Definition py_int (x : num) : result Z :=
  match x with
  | Fin q => Ok (trunc q)
  | NaN => Raise (ValueError "cannot convert float NaN to integer")
  | _ => Raise (OverflowError "cannot convert float infinity to integer")
  end.


End Num.

(** ** Text frames *)

Inductive cell : Type :=
| NA
| Txt (s : string).

Definition column : Type := (string * list cell)%type.

(** What [pd.read_csv(path, sep=..., dtype=str)] hands over: the columns
    in file order, every cell a text or missing. *)
Definition frame : Type := list column.

(** The file system as the loaders see it: the outcome of
    [pd.read_csv(path, sep=sep, dtype=str)] for each path and separator,
    [None] standing for [sep=None, engine="python"]. *)
Definition reader : Type := string -> option string -> result frame.

Module Frame.

Definition names (df : frame) : list string := map fst df.

Definition nrows (df : frame) : nat :=
  match df with
  | [] => O
  | (_, cells) :: _ => List.length cells
  end.

(** A frame is rectangular and its column labels are distinct, which
    [read_csv] guarantees (it renames repeated headers). *)
Definition well_formed (df : frame) : Prop :=
  NoDup (names df) /\ Forall (fun c => List.length (snd c) = nrows df) df.

Fixpoint lookup (name : string) (df : frame) : option (list cell) :=
  match df with
  | [] => None
  | (n, cells) :: df' => if String.eqb n name then Some cells else lookup name df'
  end.

(** [df[name]] *)
Definition get_col (name : string) (df : frame) : result (list cell) :=
  match lookup name df with
  | Some cells => Ok cells
  | None => Raise (KeyError name)
  end.

(** [Series.fillna(v)] on one text cell. *)
Definition fillna (v : string) (c : cell) : string :=
  match c with NA => v | Txt s => s end.

(** [str(x)] of a cell: a missing cell is the float NaN. *)
Definition str (c : cell) : string :=
  match c with NA => "nan" | Txt s => s end.

(** One element of a text column under [pd.to_numeric(..., "coerce")]. *)
Definition to_numeric (c : cell) : num :=
  match c with NA => NaN | Txt s => Num.to_numeric_str s end.

(** Order of a text key in [sort_values] and [groupby]: texts by code
    point, missing keys last. *)
Definition cell_ltb (x y : cell) : bool :=
  match x, y with
  | Txt s, Txt t => PyStr.ltb s t
  | Txt _, NA => true
  | NA, _ => false
  end.

Definition cell_eqb (x y : cell) : bool :=
  match x, y with
  | Txt s, Txt t => String.eqb s t
  | NA, NA => true
  | _, _ => false
  end.

(** The cell of the column [name] in the row [i], missing when the
    frame has no such column or row. *)
Definition cell_at (df : frame) (name : string) (i : nat) : cell :=
  match lookup name df with
  | Some cells => nth i cells NA
  | None => NA
  end.

End Frame.

(** ** Stable sorting, as [sort_values] does on several keys *)

Section StableSort.

Context {A : Type} (ltb : A -> A -> bool).

(** [x] is put before the first element that is not below it, so it
    stays ahead of the elements it ties with. *)
Fixpoint insert (x : A) (l : list A) : list A :=
  match l with
  | [] => [x]
  | y :: l' => if ltb y x then y :: insert x l' else x :: l
  end.

Fixpoint stable_sort (l : list A) : list A :=
  match l with
  | [] => []
  | x :: l' => insert x (stable_sort l')
  end.

End StableSort.

(** ** [Series.unique()] *)

(** The values in the order of their first appearance; [seen] holds the
    values met so far. *)
Fixpoint unique_from {A : Type} (eqb : A -> A -> bool) (seen l : list A)
  : list A :=
  match l with
  | [] => []
  | x :: l' =>
      if existsb (eqb x) seen then unique_from eqb seen l'
      else x :: unique_from eqb (x :: seen) l'
  end.

Definition unique {A : Type} (eqb : A -> A -> bool) (l : list A) : list A :=
  unique_from eqb [] l.

(** ** [1_Aquisições_MS.py] *)

Module Acquisitions.

(** A row of the melted frame. *)
Record melted : Type := mk_melted
  { m_medicamento : cell; m_Ano : string; m_Quantidade : cell }.

(** A row after the two columns were made numeric. *)
Record cleaned : Type := mk_cleaned
  { c_medicamento : cell; c_Ano : num; c_Quantidade : num }.

(** A row of the table the loader returns. *)
Record row : Type := mk_row
  { medicamento : cell; Ano : Z; Quantidade : num }.

(** [[c for c in df_raw.columns if c.lower() != "medicamento"]] *)
Definition year_cols (df_raw : frame) : list string :=
  filter (fun c => negb (String.eqb (PyStr.lower c) "medicamento"))
         (Frame.names df_raw).

(** [DataFrame.melt(id_vars=id, value_vars=vars, var_name=...,
    value_name=value_name)]: the identifier column repeated once per
    value column, the value columns stacked in the order of [vars].
    pandas first refuses a frame that already has a column called
    [value_name], then looks the labels up. *)
Definition melt (id : string) (vars : list string) (value_name : string)
    (df : frame) : result (list melted) :=
  if existsb (String.eqb value_name) (Frame.names df)
  then Raise (ValueError value_name)
  else
    ids <- Frame.get_col id df ;;
    cols <- mapM (fun c => cells <- Frame.get_col c df ;; Ok (c, cells)) vars ;;
    Ok (flat_map
          (fun col : column =>
             map (fun iv => mk_melted (fst iv) (fst col) (snd iv))
                 (combine ids (snd col)))
          cols).

(** The clean-up of one quantity cell (lines 41-48): [fillna("0")],
    [astype(str)], the two [str.replace], [to_numeric] with coercion and
    [fillna(0)]. *)
Definition clean_quantidade (c : cell) : num :=
  let s := Frame.fillna "0" c in
  let s := PyStr.replace "." "" s in
  let s := PyStr.replace "," "." s in
  Num.fillna0 (Num.to_numeric_str s).

Definition clean (r : melted) : cleaned :=
  mk_cleaned (m_medicamento r)
             (Num.to_numeric_str (m_Ano r))
             (clean_quantidade (m_Quantidade r)).

(** [df.dropna(subset=["Ano"])] *)
Definition dropna_Ano (l : list cleaned) : list cleaned :=
  filter (fun r => negb (Num.isna (c_Ano r))) l.

(** [df["Ano"].astype(int)] *)
Definition cast (r : cleaned) : result row :=
  a <- Num.astype_int (c_Ano r) ;;
  Ok (mk_row (c_medicamento r) a (c_Quantidade r)).

(** The order of [sort_values(["Ano", "medicamento"])]. *)
Definition row_ltb (x y : row) : bool :=
  (Ano x <? Ano y)
  || ((Ano x =? Ano y) && Frame.cell_ltb (medicamento x) (medicamento y)).

(** The body of [load_coagulopatias_data] once the file is read. *)
Definition load_frame (df_raw : frame) : result (list row) :=
  df <- melt "medicamento" (year_cols df_raw) "Quantidade" df_raw ;;
  let df := map clean df in
  let df := dropna_Ano df in
  df <- mapM cast df ;;
  Ok (stable_sort row_ltb df).

Definition load_coagulopatias_data (read_csv : reader) (path_csv : string)
  : result (list row) :=
  df_raw <- read_csv path_csv (Some ";") ;;
  load_frame df_raw.

(** What the page shows before any chart (lines 65-73). *)
Inductive outcome : Type :=
| Error_stop (path : string) (e : exn)
| Warning_stop (msg : string)
| Render (df : list row).

Definition page (read_csv : reader) : outcome :=
  match load_coagulopatias_data read_csv "medicamentos_coagulopatias.csv" with
  | Raise e => Error_stop "medicamentos_coagulopatias.csv" e
  | Ok [] =>
      Warning_stop
        "Nenhum dado disponível na planilha de medicamentos para coagulopatias."
  | Ok df => Render df
  end.

(** *** The table seen from its columns *)

(** The columns that are stacked: all but those called [medicamento],
    in whatever letter case. *)
Definition value_columns (df_raw : frame) : list column :=
  filter (fun c : column =>
            negb (String.eqb (PyStr.lower (fst c)) "medicamento"))
         df_raw.

(** The rows of the melted frame that come from one column. *)
Definition melt_column (ids : list cell) (col : column) : list melted :=
  map (fun iv => mk_melted (fst iv) (fst col) (snd iv))
      (combine ids (snd col)).

(** The rows of the result that come from one column: none unless its
    header reads as a number, whose integer part is the year. *)
Definition rows_of_column (ids : list cell) (col : column) : list row :=
  match Num.to_numeric_str (fst col) with
  | Fin q =>
      map (fun iv =>
             mk_row (fst iv) (Num.trunc q) (clean_quantidade (snd iv)))
          (combine ids (snd col))
  | _ => []
  end.

(** A year column of the wide table: not the identifier, and a header
    that reads as a number. *)
Definition is_year_column (col : column) : bool :=
  negb (String.eqb (PyStr.lower (fst col)) "medicamento")
  && match Num.to_numeric_str (fst col) with Fin _ => true | _ => false end.





(** The quantity normalizer as the specification words it: a missing or
    empty value is ["0"], every ['.'] is dropped, every [','] becomes
    ['.'], the text is read as a number and what cannot be read is 0. *)
Module Spec.




End Spec.

(** *** The filters and the metrics of the page (lines 80-106, 170-176) *)





(** [df[(df["Ano"] >= intervalo_anos[0]) & (df["Ano"] <= intervalo_anos[1])]] *)
Definition filtrar (df : list row) (intervalo_anos : Z * Z) : list row :=
  filter (fun r => (fst intervalo_anos <=? Ano r)
                   && (Ano r <=? snd intervalo_anos)) df.

Definition is_na (c : cell) : bool :=
  match c with NA => true | Txt _ => false end.

(** [Series.nunique()], which leaves the missing values out. *)
Definition nunique_cells (l : list cell) : nat :=
  List.length (unique Frame.cell_eqb (filter (fun c => negb (is_na c)) l)).

(** [sorted(...)] of names: Python cannot order the float NaN of a
    missing name against a text, and a sort of two values or more
    compares each of them with another. *)
Definition sorted_cells (l : list cell) : result (list cell) :=
  if existsb is_na l && existsb (fun c => negb (is_na c)) l
  then Raise (TypeError "'<' not supported between instances of 'float' and 'str'")
  else Ok (stable_sort Frame.cell_ltb l).

(** What the page computes for its metrics and for the selector of
    medicines. *)
Record painel : Type := mk_painel
  { total_geral : Z; num_medicamentos : nat; num_anos : nat;
    meds_disponiveis : list cell; meds_padrao : list cell }.

(** The page below the filters, for the interval the slider gives. *)
Definition render (df : list row) (intervalo_anos : Z * Z) : result painel :=
  let df_filtrado := filtrar df intervalo_anos in
  total <- Num.py_int (Num.sum (map Quantidade df_filtrado)) ;;
  let meds := map medicamento df_filtrado in
  disponiveis <- sorted_cells (unique Frame.cell_eqb meds) ;;
  Ok (mk_painel total (nunique_cells meds)
                (List.length (unique Z.eqb (map Ano df_filtrado)))
                disponiveis
                (if (5 <? List.length disponiveis)%nat
                 then firstn 5 disponiveis else disponiveis)).

(** [df_filtrado.sort_values(["Ano", "medicamento"])], the table under
    the charts (line 209). *)
Definition detalhes (df : list row) (intervalo_anos : Z * Z) : list row :=
  stable_sort row_ltb (filtrar df intervalo_anos).

(** *** The tables behind the charts (lines 115-145 and 178-183) *)

(** [groupby("Ano", as_index=False)["Quantidade"].sum()]: one row for
    each year of the table, the years ascending, with the sum of the
    quantities of the year. *)
Definition groupby_ano (df : list row) : list (Z * num) :=
  map (fun ano =>
         (ano, Num.sum (map Quantidade (filter (fun r => Ano r =? ano) df))))
      (stable_sort Z.ltb (unique Z.eqb (map Ano df))).

Definition ano_ltb (x y : Z * num) : bool := fst x <? fst y.

(** [total_anual] (lines 115-119), [sort_values] being the sort on the
    column [Ano]. *)
Definition total_anual (sort_values : list (Z * num) -> list (Z * num))
    (df_filtrado : list row) : list (Z * num) :=
  sort_values (groupby_ano df_filtrado).

(** The key of a row under [groupby(["Ano", "medicamento"])]: a row
    without a medicine belongs to no group. *)
Definition chave (r : row) : option (Z * string) :=
  match medicamento r with
  | Txt m => Some (Ano r, m)
  | NA => None
  end.

Definition chave_eqb (x y : Z * string) : bool :=
  (fst x =? fst y) && String.eqb (snd x) (snd y).

Definition chave_ltb (x y : Z * string) : bool :=
  (fst x <? fst y) || ((fst x =? fst y) && PyStr.ltb (snd x) (snd y)).

Definition chaves (df : list row) : list (Z * string) :=
  flat_map (fun r => match chave r with Some k => [k] | None => [] end) df.

Definition tem_chave (k : Z * string) (r : row) : bool :=
  match chave r with
  | Some k' => chave_eqb k' k
  | None => false
  end.

(** [groupby(["Ano", "medicamento"], as_index=False)["Quantidade"].sum()]:
    one row for each pair of year and medicine that the table has, in the
    order of the pairs. *)
Definition groupby_ano_medicamento (df : list row)
  : list ((Z * string) * num) :=
  map (fun k => (k, Num.sum (map Quantidade (filter (tem_chave k) df))))
      (stable_sort chave_ltb (unique chave_eqb (chaves df))).

(** [comp_anual_medicamento] (lines 142-145). *)
Definition comp_anual_medicamento (df_filtrado : list row)
  : list ((Z * string) * num) :=
  groupby_ano_medicamento df_filtrado.

(** [Series.isin(values)] on one cell. *)
Definition isin (values : list cell) (c : cell) : bool :=
  existsb (Frame.cell_eqb c) values.

(** [df_meds] (lines 178-183): nothing is computed for an empty
    selection. *)
Definition df_meds (df_filtrado : list row) (meds_selecionados : list cell)
  : option (list ((Z * string) * num)) :=
  match meds_selecionados with
  | [] => None
  | _ =>
      Some (groupby_ano_medicamento
              (filter (fun r => isin meds_selecionados (medicamento r))
                      df_filtrado))
  end.

End Acquisitions.

(** ** Sorting on one key, as [sort_values] does by default

    With a single key [sort_values] calls numpy's [argsort] with
    [kind="quicksort"], which promises a sorted rearrangement of its input
    and nothing about the order of the elements that tie. *)

Record sorter {A : Type} (ltb : A -> A -> bool) : Type := mk_sorter
  { argsort :> list A -> list A;
    argsort_perm : forall l, Permutation l (argsort l);
    argsort_sorted :
      forall l, StronglySorted (fun x y => ltb y x = false) (argsort l) }.

Arguments argsort {A ltb} _ _.

(** ** [Hemo_8R.py] *)

Module Hemo8R.

Record date : Type := mk_date { year : Z; month : Z; day : Z }.

Definition date_ltb (d e : date) : bool :=
  (year d <? year e)
  || ((year d =? year e)
      && ((month d <? month e)
          || ((month d =? month e) && (day d <? day e)))).

(** *** The distribution by health service *)



(** One cell of a UI column (lines 32-39): [fillna("0")], the dots
    removed, [str.strip], [to_numeric] with coercion, [fillna(0)] and
    [astype(int)]. *)
Definition clean_ui (c : cell) : result Z :=
  let s := Frame.fillna "0" c in
  let s := PyStr.replace "." "" s in
  let s := PyStr.strip s in
  Num.astype_int (Num.fillna0 (Num.to_numeric_str s)).

Definition meses : list (string * Z) :=
  [ ("janeiro", 1); ("fevereiro", 2); ("março", 3); ("marco", 3);
    ("abril", 4); ("maio", 5); ("junho", 6); ("julho", 7); ("agosto", 8);
    ("setembro", 9); ("outubro", 10); ("novembro", 11); ("dezembro", 12) ].

(** [meses.get(mon)] *)
Fixpoint get (mon : string) (d : list (string * Z)) : option Z :=
  match d with
  | [] => None
  | (k, v) :: d' => if String.eqb k mon then Some v else get mon d'
  end.

(** *** The pattern [([a-zç]+)\/?(\d{2}|\d{4})] under [re.match] *)

(** [\d{n}]: [n] digits, returned with what follows them. *)
Fixpoint digits_n (n : nat) (s : string) : option (string * string) :=
  match n with
  | O => Some (EmptyString, s)
  | S n' =>
      match s with
      | String a s' =>
          if Num.is_digit a then
            match digits_n n' s' with
            | Some (ds, rest) => Some (String a ds, rest)
            | None => None
            end
          else None
      | EmptyString => None
      end
  end.

(** [(\d{2}|\d{4})]: the alternatives are tried from left to right and,
    the pattern ending here, the first that matches is kept. *)
Definition year_group (s : string) : option string :=
  match digits_n 2 s with
  | Some (ds, _) => Some ds
  | None =>
      match digits_n 4 s with
      | Some (ds, _) => Some ds
      | None => None
      end
  end.

(** [\/?(...)]: the separator is taken when present, and given back
    when the year does not follow it. *)
Definition sep_year (s : string) : option string :=
  match s with
  | String "/" s' =>
      match year_group s' with
      | Some ds => Some ds
      | None => year_group s
      end
  | _ => year_group s
  end.

Definition is_az (a : ascii) : bool := PyStr.between 97 122 a.

(** [([a-zç]+)] then the rest: the run of letters is taken as long as it
    goes, and shortened one letter at a time while the rest fails.
    [acc] holds the letters read so far, last one first. *)
Fixpoint letters_then (acc : string) (s : string) : option (string * string) :=
  let stop (acc' rest : string) :=
    match sep_year rest with
    | Some ds => Some (PyStr.rev acc', ds)
    | None => None
    end in
  match s with
  | String a s1 =>
      if is_az a then
        match letters_then (String a acc) s1 with
        | Some r => Some r
        | None => stop (String a acc) s1
        end
      else
        match s1 with
        | String a' s2 =>
            if Ascii.eqb a (PyStr.b 195) && Ascii.eqb a' (PyStr.b 167) then
              match letters_then (String a' (String a acc)) s2 with
              | Some r => Some r
              | None => stop (String a' (String a acc)) s2
              end
            else None
        | EmptyString => None
        end
  | EmptyString => None
  end.

(** [re.match(pattern, s)]: the two groups of the match at the start of
    [s], if there is one. *)
Definition re_match (s : string) : option (string * string) :=
  letters_then EmptyString s.

(** [int(m.group(2))] on a string of digits. *)
Definition int_of_digits (ds : string) : Z :=
  let '(v, _, _) := Num.digits 0 O ds in v.

(** [parse_periodo]; [None] is [pd.NaT]. *)
Definition parse_periodo (c : cell) : option date :=
  let s := PyStr.lower (PyStr.strip (Frame.str c)) in
  match re_match s with
  | None => None
  | Some (g1, g2) =>
      let mon := PyStr.replace "ç" "c" g1 in
      let ano := int_of_digits g2 in
      let ano := if ano <? 100 then 2000 + ano else ano in
      match get mon meses with
      | None => None
      | Some mes => Some (mk_date ano mes 1)
      end
  end.

(** [parse_periodo] over any table of months. *)
Definition parse_periodo_with (table : list (string * Z)) (c : cell)
  : option date :=
  let s := PyStr.lower (PyStr.strip (Frame.str c)) in
  match re_match s with
  | None => None
  | Some (g1, g2) =>
      let mon := PyStr.replace "ç" "c" g1 in
      let ano := int_of_digits g2 in
      let ano := if ano <? 100 then 2000 + ano else ano in
      match get mon table with
      | None => None
      | Some mes => Some (mk_date ano mes 1)
      end
  end.

(** The text and UI columns of one row. *)
Record base_row : Type := mk_base
  { Periodo_de_saida : cell; Servico_de_Saude : cell;
    UI_250 : Z; UI_500 : Z; UI_1000 : Z; UI_1500 : Z; Total_Geral : Z }.

(** A row of the table the loader returns. *)
Record row : Type := mk_row { base : base_row; periodo : date }.

(** [df.dropna(subset=["periodo"])] on one row of the frame that has
    the column [periodo]. *)
Definition keep (r : base_row * option date) : option row :=
  match snd r with
  | Some d => Some (mk_row (fst r) d)
  | None => None
  end.

Fixpoint dropna_periodo (l : list (base_row * option date)) : list row :=
  match l with
  | [] => []
  | r :: l' =>
      match keep r with
      | Some x => x :: dropna_periodo l'
      | None => dropna_periodo l'
      end
  end.

(** Whether a period text parses. *)
Definition parses (c : cell) : bool :=
  match parse_periodo c with Some _ => true | None => false end.

(** The body of [load_data] once the file is read. *)
Definition load_frame (df : frame) : result (list row) :=
  ps <- Frame.get_col "Período de saída" df ;;
  ss <- Frame.get_col "Serviço de Saúde" df ;;
  c1 <- Frame.get_col "250 UI" df ;;
  c2 <- Frame.get_col "500 UI" df ;;
  c3 <- Frame.get_col "1000 UI" df ;;
  c4 <- Frame.get_col "1500 UI" df ;;
  c5 <- Frame.get_col "Total Geral" df ;;
  u1 <- mapM clean_ui c1 ;;
  u2 <- mapM clean_ui c2 ;;
  u3 <- mapM clean_ui c3 ;;
  u4 <- mapM clean_ui c4 ;;
  u5 <- mapM clean_ui c5 ;;
  let rows :=
    map (fun i =>
           mk_base (nth i ps NA) (nth i ss NA)
                   (nth i u1 0) (nth i u2 0) (nth i u3 0) (nth i u4 0)
                   (nth i u5 0))
        (seq 0 (List.length ps)) in
  let rows := map (fun r => (r, parse_periodo (Periodo_de_saida r))) rows in
  Ok (dropna_periodo rows).

Definition load_data (read_csv : reader) (path_csv : string)
  : result (list row) :=
  df <- read_csv path_csv (Some ";") ;;
  load_frame df.




(** *** The Ministry of Health table *)

Record ms_row : Type := mk_ms
  { Ano : num; Quantidade : num; others : list cell }.

(** [df.rename(columns={"ano": "Ano", "quantidade": "Quantidade"})] *)
Definition rename (df : frame) : frame :=
  map (fun c : column =>
         ((if String.eqb (fst c) "ano" then "Ano"
           else if String.eqb (fst c) "quantidade" then "Quantidade"
           else fst c), snd c)) df.

(** [pd.to_numeric(df[name], errors="coerce")]: the label has to name
    one column. *)
Definition numeric_col (name : string) (df : frame) : result (list num) :=
  match filter (fun c : column => String.eqb (fst c) name) df with
  | [] => Raise (KeyError name)
  | [c] => Ok (map Frame.to_numeric (snd c))
  | _ => Raise (TypeError "arg must be a list, tuple, 1-d array, or Series")
  end.

Definition other_cols (df : frame) : list (list cell) :=
  map snd
      (filter (fun c : column =>
                 negb (String.eqb (fst c) "Ano" || String.eqb (fst c) "Quantidade"))
              df).

Definition is_txt (c : cell) : bool :=
  match c with Txt _ => true | NA => false end.

(** [df.dropna()]: a row stays when none of its cells is missing. *)
Definition complete (r : ms_row) : bool :=
  negb (Num.isna (Ano r)) && negb (Num.isna (Quantidade r))
  && forallb is_txt (others r).

Definition ms_ltb (x y : ms_row) : bool := Num.ltb (Ano x) (Ano y).

(** The body of [load_ms_data] once the file is read; [quicksort] is
    the sort behind [sort_values("Ano")]. *)
Definition load_ms_frame (quicksort : sorter ms_ltb) (df : frame)
  : result (list ms_row) :=
  let df := rename df in
  anos <- numeric_col "Ano" df ;;
  qtds <- numeric_col "Quantidade" df ;;
  let rows :=
    map (fun i =>
           mk_ms (nth i anos NaN) (nth i qtds NaN)
                 (map (fun c => nth i c NA) (other_cols df)))
        (seq 0 (Frame.nrows df)) in
  Ok (quicksort (filter complete rows)).

Definition load_ms_data (quicksort : sorter ms_ltb) (read_csv : reader)
    (path_csv : string) : result (list ms_row) :=
  df <- read_csv path_csv (Some ";") ;;
  load_ms_frame quicksort df.

(** *** The ranking of the services (lines 149-155) *)

Definition total : Type := (string * Z)%type.

(** One more row for the group [k]: the groups are kept in the order
    of their keys. *)
Fixpoint add_to (k : string) (v : Z) (groups : list total) : list total :=
  match groups with
  | [] => [(k, v)]
  | (k', v') :: rest =>
      if String.eqb k' k then (k', v' + v) :: rest
      else if PyStr.ltb k k' then (k, v) :: groups
      else (k', v') :: add_to k v rest
  end.

(** [df.groupby("Serviço de Saúde")["Total Geral"].sum().reset_index()]:
    one row per service in the order of the names; rows without a
    service belong to no group. *)
Definition groupby_sum (df : list row) : list total :=
  fold_left
    (fun groups r =>
       match Servico_de_Saude (base r) with
       | Txt k => add_to k (Total_Geral (base r)) groups
       | NA => groups
       end)
    df [].

Definition total_ltb (x y : total) : bool := snd x <? snd y.

(** [sort_values("Total Geral", ascending=False)]: pandas reverses the
    values, sorts them upwards and reverses the outcome. *)
Definition sort_values_desc (quicksort : sorter total_ltb) (l : list total)
  : list total :=
  rev (quicksort (rev l)).

Definition rank_totals (quicksort : sorter total_ltb) (totals : list total)
    (top_n : nat) : list total :=
  firstn top_n (sort_values_desc quicksort totals).

Definition rank (quicksort : sorter total_ltb) (df : list row) (top_n : nat)
  : list total :=
  rank_totals quicksort (groupby_sum df) top_n.

(** The ranking as the specification words it: the totals in
    descending order, the ones that tie in the order of the input, cut to
    the first [n]. *)
Module Spec.

Definition before (x y : total) : bool := snd y <? snd x.

Definition top_n (totals : list total) (n : nat) : list total :=
  firstn n (stable_sort before totals).

End Spec.

(** *** The page *)

(** [min] and [max] of the column [periodo], missing on an empty one. *)
Definition min_periodo (df : list row) : option date :=
  match df with
  | [] => None
  | r :: df' =>
      Some (fold_left (fun m x => if date_ltb (periodo x) m then periodo x else m)
                      df' (periodo r))
  end.

Definition max_periodo (df : list row) : option date :=
  match df with
  | [] => None
  | r :: df' =>
      Some (fold_left (fun m x => if date_ltb m (periodo x) then periodo x else m)
                      df' (periodo r))
  end.

(** [x.strftime("%b/%Y")]: the month and the year of the label; what
    an empty column gives for its minimum has no such method. *)
Definition strftime (x : option date) : result (Z * Z) :=
  match x with
  | Some d => Ok (month d, year d)
  | None => Raise (AttributeError "strftime")
  end.

(** [int(x)] of a float. *)
Definition int (x : num) : result Z :=
  match x with
  | Fin q => Ok (Num.trunc q)
  | NaN => Raise (ValueError "cannot convert float NaN to integer")
  | _ => Raise (OverflowError "cannot convert float infinity to integer")
  end.

(** The metrics of the Ministry of Health section (lines 85-114); the
    section is skipped with a notice when the load fails or the table
    is empty. *)
Definition ms_section (quicksort : sorter ms_ltb) (read_csv : reader)
  : result (option Z) :=
  match load_ms_data quicksort read_csv "hemo8R_MS.csv" with
  | Raise _ | Ok [] => Ok None
  | Ok df_ms =>
      t <- int (Num.sum (map Quantidade df_ms)) ;;
      Ok (Some t)
  end.

Record kpis : Type := mk_kpis
  { De : Z * Z; Ate : Z * Z; Volume_total : Z; Registros : nat }.

(** The metrics of the services section (lines 128-139). *)
Definition services_kpis (df : list row) : result kpis :=
  de <- strftime (min_periodo df) ;;
  ate <- strftime (max_periodo df) ;;
  Ok (mk_kpis de ate
              (fold_right Z.add 0 (map (fun r => Total_Geral (base r)) df))
              (List.length df)).

(** [df['Serviço de Saúde'].nunique()] (line 133). *)
Definition servicos (df : list row) : nat :=
  Acquisitions.nunique_cells (map (fun r => Servico_de_Saude (base r)) df).

(** How a run of the script ends: stopped by [st.stop()] after a
    message, ended by an exception nothing catches, or through. *)
Inductive outcome : Type :=
| Error_stop (path : string) (e : exn)
| Uncaught (e : exn)
| Render (ms : option Z) (k : kpis).

Definition page (quicksort : sorter ms_ltb) (read_csv : reader) : outcome :=
  match ms_section quicksort read_csv with
  | Raise e => Uncaught e
  | Ok ms =>
      match load_data read_csv "historico_hemo8r.csv" with
      | Raise e => Error_stop "historico_hemo8r.csv" e
      | Ok df =>
          match services_kpis df with
          | Raise e => Uncaught e
          | Ok k => Render ms k
          end
      end
  end.

(** *** The monthly series (line 143) *)

Definition date_eqb (d e : date) : bool :=
  (year d =? year e) && (month d =? month e) && (day d =? day e).

(** The columns of [ui_cols], in their order. *)
Definition ui_fields : list (base_row -> Z) :=
  [UI_250; UI_500; UI_1000; UI_1500; Total_Geral].

(** The sums of the UI columns over some rows. *)
Definition sum_ui (rows : list row) : list Z :=
  map (fun col => fold_right Z.add 0 (map (fun r => col (base r)) rows))
      ui_fields.

(** [df.groupby("periodo")[ui_cols].sum()]: one row for each period of
    the table, the periods ascending, with the sums of the UI columns
    over the rows of the period. *)
Definition groupby_periodo (df : list row) : list (date * list Z) :=
  map (fun p => (p, sum_ui (filter (fun r => date_eqb (periodo r) p) df)))
      (stable_sort date_ltb (unique date_eqb (map periodo df))).

Definition mes_ltb (x y : date * list Z) : bool := date_ltb (fst x) (fst y).

(** [monthly], [sort_index] being the sort on the index. *)
Definition monthly
    (sort_index : list (date * list Z) -> list (date * list Z))
    (df : list row) : list (date * list Z) :=
  sort_index (groupby_periodo df).

End Hemo8R.

(** ** [2_Emicizumabe.py] *)

Module Emicizumabe.

(** The candidates of [load_csv_auto], [None] being the sniffing read. *)
Definition candidates : list (option string) := [Some ";"; Some ","; None].

(** The loop of [load_csv_auto]: the first read that returns is the
    result, a read that raises moves on to the next candidate. *)
Fixpoint try_each (read_csv : reader) (path : string)
    (seps : list (option string)) : result frame :=
  match seps with
  | [] => Raise (RuntimeError ("Falha ao ler CSV: " ++ path))
  | sep :: seps' =>
      match read_csv path sep with
      | Ok df => Ok df
      | Raise _ => try_each read_csv path seps'
      end
  end.

Definition load_csv_auto (read_csv : reader) (path : string) : result frame :=
  try_each read_csv path candidates.

Definition PATH_HB : string := "dados_emicizumabe_HB.csv".
Definition PATH_ROCHE : string := "dados_emicizumabe_ROCHE.csv".

(** How the page ends (lines 26-54): with the error of the first load
    that failed, or with the two tables shown as they were read. *)
Inductive outcome : Type :=
| Error_stop (e : exn)
| Show (df_hb df_roche : frame).

Definition page (read_csv : reader) : outcome :=
  match load_csv_auto read_csv PATH_HB with
  | Raise e => Error_stop e
  | Ok df_hb =>
      match load_csv_auto read_csv PATH_ROCHE with
      | Raise e => Error_stop e
      | Ok df_roche => Show df_hb df_roche
      end
  end.

End Emicizumabe.

(** ** The totals as the pages print them

    [f"{n:,}".replace(",", ".")] (lines 96 and 133-135 of [Hemo_8R.py],
    line 106 of [1_Aquisições_MS.py]). *)

Module PyFormat.








End PyFormat.

(** ** Sample files *)

Module Samples.

(** A wide acquisitions table with a note column and an unreadable
    quantity. *)
Definition wide : frame :=
  [ ("medicamento", [Txt "Fator VIII"; Txt "Fator IX"]);
    ("2020", [Txt "3.100"; NA]);
    ("obs", [Txt "x"; Txt "y"]);
    ("2019", [Txt "1.234,56"; Txt "abc"]) ].

(** Two headers that denote the same year, in the two orders. *)
Definition same_year : frame :=
  [ ("medicamento", [Txt "Fator VIII"]);
    ("2019", [Txt "1"]);
    ("2019.0", [Txt "2"]) ].

Definition same_year_swapped : frame :=
  [ ("medicamento", [Txt "Fator VIII"]);
    ("2019.0", [Txt "2"]);
    ("2019", [Txt "1"]) ].

(** The wide table with its identifier column moved to the end. *)
Definition wide_id_last : frame :=
  [ ("2020", [Txt "3.100"; NA]);
    ("obs", [Txt "x"; Txt "y"]);
    ("2019", [Txt "1.234,56"; Txt "abc"]);
    ("medicamento", [Txt "Fator VIII"; Txt "Fator IX"]) ].




(** A distribution table whose second row has an unknown month. *)
Definition services : frame :=
  [ ("Período de saída", [Txt "janeiro/19"; Txt "xyz/19"; Txt "dezembro/2023"]);
    ("Serviço de Saúde", [Txt "HEMOPE"; Txt "HEMORIO"; Txt "HEMOPE"]);
    ("250 UI", [Txt "3.100"; Txt "1"; NA]);
    ("500 UI", [Txt "10"; Txt "2"; Txt "abc"]);
    ("1000 UI", [Txt "0"; Txt "3"; Txt "7"]);
    ("1500 UI", [Txt "5"; Txt "4"; Txt "1.234,56"]);
    ("Total Geral", [Txt "3.115"; Txt "10"; Txt "7"]) ].


(** A Ministry of Health table in the Brazilian number format. *)
Definition ministry : frame :=
  [ ("ano", [Txt "2020"; Txt "2021"; Txt "2022"; Txt "x"]);
    ("quantidade", [Txt "3.100"; Txt "1,5"; Txt "7"; Txt "9"]) ].



End Samples.

(** ** Notions used in the proofs *)

(** A token of [str.strip] made of bytes above the ASCII range. *)
Fixpoint high (t : string) : bool :=
  match t with
  | EmptyString => true
  | String a t' => (128 <=? PyStr.code a)%N && high t'
  end.

Definition wide_space (t : string) : bool :=
  high t && negb (String.eqb t "").

Definition low (a : ascii) : bool :=
  (PyStr.code a <? 128)%N && negb (PyStr.ascii_space a).

(** What the parser needs of a month name: it starts with an ASCII
    letter, [lower] leaves it as it is, the pattern reads it whole as its
    first group, and the table has it once the cedilla is replaced. *)
Definition month_ok (mon : string) (mes : Z) : Prop :=
  (exists c0 P, mon = String c0 P /\ low c0 = true)
  /\ (forall Y, PyStr.lower_from false (mon ++ Y)
                = mon ++ PyStr.lower_from false Y)
  /\ (forall X ds,
         (forall acc, Hemo8R.letters_then acc X = None) ->
         Hemo8R.sep_year X = Some ds ->
         Hemo8R.re_match (mon ++ X) = Some (mon, ds))
  /\ Hemo8R.get (PyStr.replace "ç" "c" mon) Hemo8R.meses = Some mes.

(** The text of a two-digit year. *)
Definition two_digits (ds : string) : Prop :=
  exists a b, ds = String a (String b "")
              /\ Num.is_digit a = true /\ Num.is_digit b = true.

(** The sum of the totals of the rows of the service [k], and the sum of
    the totals a list of groups holds under the key [k]. *)
Definition service_total (k : string) (df : list Hemo8R.row) : Z :=
  fold_right Z.add 0
    (map (fun r => Hemo8R.Total_Geral (Hemo8R.base r))
         (filter (fun r => Frame.cell_eqb
                             (Hemo8R.Servico_de_Saude (Hemo8R.base r)) (Txt k))
                 df)).

Definition group_sum (k : string) (groups : list Hemo8R.total) : Z :=
  fold_right Z.add 0
    (map snd (filter (fun t : Hemo8R.total => String.eqb (fst t) k) groups)).

(** The columns of the Ministry of Health file that are called [Ano] and
    [Quantidade] once renamed. *)
Definition ano_cols (df : frame) : list column :=
  filter (fun c : column =>
            String.eqb (fst c) "ano" || String.eqb (fst c) "Ano") df.

Definition quantidade_cols (df : frame) : list column :=
  filter (fun c : column =>
            String.eqb (fst c) "quantidade" || String.eqb (fst c) "Quantidade")
         df.




(** * Properties *)

(** ** Strings *)









(** C2.  [parse_periodo] gives the first day of January 2019 on
    ["janeiro/19"] and no date on ["xyz/19"], whose row the loader leaves
    out; on ["dezembro/2023"] it gives the first day of December 2020, not
    2023: the year is read from the two digits ["20"]. *)
Theorem parse_periodo_examples :
  Hemo8R.parse_periodo (Txt "janeiro/19") = Some (Hemo8R.mk_date 2019 1 1)
  /\ Hemo8R.parse_periodo (Txt "xyz/19") = None
  /\ Hemo8R.parse_periodo (Txt "dezembro/2023")
     = Some (Hemo8R.mk_date 2020 12 1)
  /\ Hemo8R.parse_periodo (Txt "dezembro/2023")
     <> Some (Hemo8R.mk_date 2023 12 1)
  /\ (exists rows,
        Hemo8R.load_frame Samples.services = Ok rows
        /\ map (fun r => Hemo8R.Periodo_de_saida (Hemo8R.base r)) rows
           = [Txt "janeiro/19"; Txt "dezembro/2023"]
        /\ map Hemo8R.periodo rows
           = [Hemo8R.mk_date 2019 1 1; Hemo8R.mk_date 2020 12 1]).
Proof.
  split; [vm_compute; reflexivity|].
  split; [vm_compute; reflexivity|].
  split; [vm_compute; reflexivity|].
  split; [vm_compute; discriminate|].
  eexists. split; [vm_compute; reflexivity|].
  split; reflexivity.
Qed.

(** ** Lists, results and sorting *)

Section MapM.

Context {A B : Type} (f : A -> result B).

Lemma mapM_app (l1 l2 : list A) :
  mapM f (l1 ++ l2)
  = (a <- mapM f l1 ;; b <- mapM f l2 ;; Ok (a ++ b)%list).
Proof.
  induction l1 as [|x l1 IH]; cbn.
  - destruct (mapM f l2); reflexivity.
  - destruct (f x); cbn; [|reflexivity].
    rewrite IH. destruct (mapM f l1); cbn; [|reflexivity].
    destruct (mapM f l2); reflexivity.
Qed.

Lemma mapM_Ok_Forall2 (l : list A) (l' : list B) :
  mapM f l = Ok l' -> Forall2 (fun a b => f a = Ok b) l l'.
Proof.
  revert l'. induction l as [|x l IH]; cbn; intros l' H.
  - injection H as <-. constructor.
  - destruct (f x) as [y|] eqn:Ex; cbn in H; [|discriminate].
    destruct (mapM f l) as [ys|]; cbn in H; [|discriminate].
    injection H as <-. constructor; auto.
Qed.

Lemma Forall2_mapM_Ok (l : list A) (l' : list B) :
  Forall2 (fun a b => f a = Ok b) l l' -> mapM f l = Ok l'.
Proof.
  induction 1 as [|x y l l' Hxy _ IH]; cbn; [reflexivity|].
  rewrite Hxy, IH. reflexivity.
Qed.



Lemma mapM_perm (l1 l2 : list A) (l1' : list B) :
  Permutation l1 l2 -> mapM f l1 = Ok l1' ->
  exists l2', mapM f l2 = Ok l2' /\ Permutation l1' l2'.
Proof.
  intros HP H. apply mapM_Ok_Forall2 in H.
  destruct (Permutation_Forall2 HP H) as [l2' [HP' HF]].
  exists l2'. split; [now apply Forall2_mapM_Ok | exact HP'].
Qed.

End MapM.

Lemma filter_perm {A : Type} (p : A -> bool) (l l' : list A) :
  Permutation l l' -> Permutation (filter p l) (filter p l').
Proof.
  induction 1 as [|x l l' _ IH|x y l|l l' l'' _ IH1 _ IH2]; cbn.
  - constructor.
  - destruct (p x); auto.
  - destruct (p x), (p y); auto using perm_swap.
  - now transitivity (filter p l').
Qed.


Section StableSortFacts.

Context {A : Type} (ltb : A -> A -> bool).

Lemma insert_perm (x : A) (l : list A) :
  Permutation (x :: l) (insert ltb x l).
Proof.
  induction l as [|y l IH]; cbn; [reflexivity|].
  destruct (ltb y x); [|reflexivity].
  rewrite perm_swap. now constructor.
Qed.

Lemma stable_sort_perm (l : list A) : Permutation l (stable_sort ltb l).
Proof.
  induction l as [|x l IH]; cbn; [constructor|].
  rewrite <- insert_perm. now constructor.
Qed.

(** [ltb] is the strict part of a total preorder. *)
Hypothesis ltb_asym : forall x y, ltb x y = true -> ltb y x = false.
Hypothesis leb_trans :
  forall x y z, ltb y x = false -> ltb z y = false -> ltb z x = false.

Let le (x y : A) : Prop := ltb y x = false.

Lemma insert_sorted (x : A) (l : list A) :
  StronglySorted le l -> StronglySorted le (insert ltb x l).
Proof.
  induction 1 as [|y l Hs IH Hy]; cbn.
  - repeat constructor.
  - destruct (ltb y x) eqn:E.
    + constructor; [exact IH|].
      rewrite Forall_forall in *. intros z Hz.
      apply (Permutation_in _ (Permutation_sym (insert_perm x l))) in Hz.
      destruct Hz as [<-|Hz]; [now apply ltb_asym | now apply Hy].
    + constructor; [now constructor|].
      constructor; [exact E|].
      rewrite Forall_forall in *. intros z Hz.
      unfold le. apply leb_trans with y; [exact E | now apply Hy].
Qed.

Lemma stable_sort_sorted (l : list A) : StronglySorted le (stable_sort ltb l).
Proof.
  induction l as [|x l IH]; cbn; [constructor | now apply insert_sorted].
Qed.

(** Two sorted arrangements of elements no two of which tie are the
    same list. *)
Lemma sorted_perm_unique (l1 l2 : list A) :
  (forall x y, In x l1 -> In y l1 -> ltb x y = false -> ltb y x = false ->
               x = y) ->
  StronglySorted le l1 -> StronglySorted le l2 -> Permutation l1 l2 ->
  l1 = l2.
Proof.
  intros Hinj Hs1. revert l2 Hinj.
  induction Hs1 as [|x l1 Hs1 IH Hx]; intros l2 Hinj Hs2 HP.
  - apply Permutation_nil in HP. now subst.
  - destruct Hs2 as [|y l2 Hs2 Hy].
    + apply Permutation_sym, Permutation_nil in HP. discriminate.
    + rewrite Forall_forall in Hx, Hy.
      assert (x = y) as <-.
      { assert (H1 : In x (y :: l2))
          by (apply (Permutation_in _ HP); now left).
        assert (H2 : In y (x :: l1))
          by (apply (Permutation_in _ (Permutation_sym HP)); now left).
        destruct H1 as [->|H1]; [reflexivity|].
        destruct H2 as [->|H2]; [reflexivity|].
        apply Hinj; [now left | now right | now apply Hy | now apply Hx]. }
      f_equal. apply IH; [|exact Hs2|now apply Permutation_cons_inv in HP].
      intros a c Ha Hc. apply Hinj; now right.
Qed.

Lemma sorter_unique (qs : sorter ltb) (l : list A) :
  (forall x y, In x l -> In y l -> ltb x y = false -> ltb y x = false ->
               x = y) ->
  qs l = stable_sort ltb l.
Proof.
  intros Hinj. apply sorted_perm_unique.
  - intros x y Hx Hy. apply Hinj.
    + now apply (Permutation_in _ (Permutation_sym (argsort_perm ltb qs l))).
    + now apply (Permutation_in _ (Permutation_sym (argsort_perm ltb qs l))).
  - apply argsort_sorted.
  - apply stable_sort_sorted.
  - rewrite <- (argsort_perm ltb qs l). apply stable_sort_perm.
Qed.

(** The stable insertion sort is one of the admissible sorts. *)
Definition insertion_sorter : sorter ltb :=
  mk_sorter A ltb (stable_sort ltb) stable_sort_perm stable_sort_sorted.


End StableSortFacts.

(** ** Numbers *)



Lemma num_ltb_fin (p q : Q) : Num.ltb (Fin p) (Fin q) = false <-> (q <= p)%Q.
Proof.
  cbn [Num.ltb]. rewrite Qle_alt, <- (Qcompare_antisym p q).
  destruct (Qcompare p q); cbn; split; congruence.
Qed.

Lemma num_ltb_asym (x y : num) : Num.ltb x y = true -> Num.ltb y x = false.
Proof.
  destruct x as [| | |p], y as [| | |q]; cbn; try congruence.
  intros H. apply num_ltb_fin.
  destruct (Qcompare_spec p q) as [E|E|E]; try discriminate.
  now apply Qlt_le_weak.
Qed.

Lemma num_leb_trans (x y z : num) :
  Num.ltb y x = false -> Num.ltb z y = false -> Num.ltb z x = false.
Proof.
  destruct x as [| | |p], y as [| | |q], z as [| | |r]; cbn; try congruence.
  intros H1 H2. apply num_ltb_fin in H1, H2. apply num_ltb_fin.
  now apply Qle_trans with q.
Qed.

(** ** Frames *)

Lemma lookup_In (df : frame) (n : string) (cells : list cell) :
  NoDup (Frame.names df) -> In (n, cells) df -> Frame.lookup n df = Some cells.
Proof.
  induction df as [|[m c] df IH]; cbn; intros Hnd Hin; [contradiction|].
  inversion Hnd as [|? ? Hm Hnd']; subst.
  destruct (String.eqb_spec m n) as [->|Hne].
  - destruct Hin as [E|Hin]; [congruence|].
    exfalso. apply Hm. apply (in_map fst) in Hin. exact Hin.
  - destruct Hin as [E|Hin]; [congruence|]. now apply IH.
Qed.

Lemma lookup_Some_In (df : frame) (n : string) (cells : list cell) :
  Frame.lookup n df = Some cells -> In (n, cells) df.
Proof.
  induction df as [|[m c] df IH]; cbn; [discriminate|].
  destruct (String.eqb_spec m n) as [->|Hne]; intros H.
  - injection H as ->. now left.
  - right. now apply IH.
Qed.

Lemma names_perm (df df' : frame) :
  Permutation df df' -> Permutation (Frame.names df) (Frame.names df').
Proof. apply Permutation_map. Qed.

Lemma lookup_perm (df df' : frame) (n : string) :
  NoDup (Frame.names df) -> Permutation df df' ->
  Frame.lookup n df' = Frame.lookup n df.
Proof.
  intros Hnd HP.
  assert (Hnd' : NoDup (Frame.names df'))
    by (eapply Permutation_NoDup; [apply names_perm, HP | exact Hnd]).
  destruct (Frame.lookup n df) as [c|] eqn:E.
  - apply lookup_In; [exact Hnd'|].
    apply (Permutation_in _ HP). now apply lookup_Some_In.
  - destruct (Frame.lookup n df') as [c|] eqn:E'; [|reflexivity].
    apply lookup_Some_In in E'.
    apply (Permutation_in _ (Permutation_sym HP)) in E'.
    apply (lookup_In _ _ _ Hnd) in E'. congruence.
Qed.

Lemma existsb_perm {A : Type} (p : A -> bool) (l l' : list A) :
  Permutation l l' -> existsb p l' = existsb p l.
Proof.
  intros HP. apply eq_true_iff_eq. rewrite !existsb_exists.
  split; intros [x [Hx Hp]]; exists x; split; auto.
  - now apply (Permutation_in _ (Permutation_sym HP)).
  - now apply (Permutation_in _ HP).
Qed.

(** ** The acquisitions loader *)

Lemma year_cols_value_columns (df : frame) :
  Acquisitions.year_cols df = map fst (Acquisitions.value_columns df).
Proof.
  unfold Acquisitions.year_cols, Acquisitions.value_columns, Frame.names.
  induction df as [|c df IH]; cbn; [reflexivity|].
  destruct (negb _); cbn; now rewrite IH.
Qed.

Lemma melt_columns (df : frame) (l : list column) :
  NoDup (Frame.names df) -> incl l df ->
  mapM (fun c => cells <- Frame.get_col c df ;; Ok (c, cells)) (map fst l)
  = Ok l.
Proof.
  intros Hnd. induction l as [|[n c] l IH]; intros Hin; cbn; [reflexivity|].
  unfold Frame.get_col at 1.
  rewrite (lookup_In df n c Hnd) by (apply Hin; now left). cbn.
  rewrite IH; [reflexivity|]. intros x Hx. apply Hin. now right.
Qed.

(** The loader, step by step, on a frame with distinct labels. *)
Lemma load_frame_eq (df : frame) :
  NoDup (Frame.names df) ->
  Acquisitions.load_frame df
  = if existsb (String.eqb "Quantidade") (Frame.names df)
    then Raise (ValueError "Quantidade")
    else
      match Frame.lookup "medicamento" df with
      | None => Raise (KeyError "medicamento")
      | Some ids =>
          pre <- mapM Acquisitions.cast
                   (Acquisitions.dropna_Ano
                      (map Acquisitions.clean
                           (flat_map (Acquisitions.melt_column ids)
                                     (Acquisitions.value_columns df)))) ;;
          Ok (stable_sort Acquisitions.row_ltb pre)
      end.
Proof.
  intros Hnd. unfold Acquisitions.load_frame, Acquisitions.melt.
  destruct (existsb _ _); [reflexivity|].
  unfold Frame.get_col at 1.
  destruct (Frame.lookup "medicamento" df) as [ids|]; [|reflexivity].
  cbn [bind]. rewrite year_cols_value_columns, melt_columns; [|exact Hnd|].
  - reflexivity.
  - intros x Hx. unfold Acquisitions.value_columns in Hx.
    now apply filter_In in Hx.
Qed.

Lemma column_cast (ids : list cell) (col : column) (pre : list Acquisitions.row) :
  mapM Acquisitions.cast
       (Acquisitions.dropna_Ano
          (map Acquisitions.clean (Acquisitions.melt_column ids col))) = Ok pre ->
  pre = Acquisitions.rows_of_column ids col.
Proof.
  unfold Acquisitions.melt_column, Acquisitions.rows_of_column.
  destruct col as [h cells]. cbn [fst snd].
  generalize (combine ids cells). intros ivs. revert pre.
  rewrite map_map. unfold Acquisitions.clean, Acquisitions.dropna_Ano.
  cbn [Acquisitions.m_medicamento Acquisitions.m_Ano Acquisitions.m_Quantidade].
  destruct (Num.to_numeric_str h) as [| | |q];
    induction ivs as [|iv ivs IH]; intros pre; cbn; intros H;
    try (injection H as <-; reflexivity);
    try discriminate H.
  - now apply IH.
  - destruct (mapM _ _) as [rs|] eqn:Er; cbn in H; [|discriminate H].
    injection H as <-. f_equal. now apply IH.
Qed.

Lemma columns_cast (ids : list cell) (cols : list column)
    (pre : list Acquisitions.row) :
  mapM Acquisitions.cast
       (Acquisitions.dropna_Ano
          (map Acquisitions.clean
               (flat_map (Acquisitions.melt_column ids) cols))) = Ok pre ->
  pre = flat_map (Acquisitions.rows_of_column ids) cols.
Proof.
  revert pre. induction cols as [|col cols IH]; intros pre; cbn [flat_map].
  - cbn. intros H. now injection H as <-.
  - unfold Acquisitions.dropna_Ano. rewrite map_app, filter_app, mapM_app.
    fold (Acquisitions.dropna_Ano
            (map Acquisitions.clean (Acquisitions.melt_column ids col))).
    fold (Acquisitions.dropna_Ano
            (map Acquisitions.clean
                 (flat_map (Acquisitions.melt_column ids) cols))).
    destruct (mapM Acquisitions.cast
                (Acquisitions.dropna_Ano
                   (map Acquisitions.clean (Acquisitions.melt_column ids col))))
      as [a|] eqn:Ea; cbn [bind]; [|easy].
    destruct (mapM Acquisitions.cast
                (Acquisitions.dropna_Ano
                   (map Acquisitions.clean
                        (flat_map (Acquisitions.melt_column ids) cols))))
      as [b|] eqn:Eb; cbn [bind]; [|easy].
    intros H. injection H as <-.
    apply column_cast in Ea. rewrite Ea, (IH b eq_refl). reflexivity.
Qed.

Lemma load_frame_Ok (df : frame) (rows : list Acquisitions.row) :
  NoDup (Frame.names df) -> Acquisitions.load_frame df = Ok rows ->
  exists ids,
    Frame.lookup "medicamento" df = Some ids
    /\ rows = stable_sort Acquisitions.row_ltb
               (flat_map (Acquisitions.rows_of_column ids)
                         (Acquisitions.value_columns df)).
Proof.
  intros Hnd. rewrite (load_frame_eq df Hnd).
  destruct (existsb _ _); [easy|].
  destruct (Frame.lookup "medicamento" df) as [ids|]; [|easy].
  destruct (mapM _ _) as [pre|] eqn:Ep; cbn [bind]; [|easy].
  intros H. injection H as <-. exists ids. split; [reflexivity|].
  now rewrite (columns_cast _ _ _ Ep).
Qed.

Lemma column_cast_ok (ids : list cell) (col : column) :
  Num.to_numeric_str (fst col) <> PosInf ->
  Num.to_numeric_str (fst col) <> NegInf ->
  mapM Acquisitions.cast
       (Acquisitions.dropna_Ano
          (map Acquisitions.clean (Acquisitions.melt_column ids col)))
  = Ok (Acquisitions.rows_of_column ids col).
Proof.
  unfold Acquisitions.melt_column, Acquisitions.rows_of_column.
  destruct col as [h cells]. cbn [fst snd].
  generalize (combine ids cells). intros ivs.
  rewrite map_map. unfold Acquisitions.clean, Acquisitions.dropna_Ano.
  cbn [Acquisitions.m_medicamento Acquisitions.m_Ano Acquisitions.m_Quantidade].
  destruct (Num.to_numeric_str h) as [| | |q]; intros Hp Hn;
    try congruence; induction ivs as [|iv ivs IH]; cbn; try reflexivity.
  - exact IH.
  - cbn in IH. rewrite IH. reflexivity.
Qed.

(** The acquisitions loader returns on every frame that has the column
    [medicamento], no column [Quantidade] and no header that reads as an
    infinity. *)
Lemma acquisitions_load_returns (df : frame) (ids : list cell) :
  NoDup (Frame.names df) ->
  existsb (String.eqb "Quantidade") (Frame.names df) = false ->
  Frame.lookup "medicamento" df = Some ids ->
  Forall (fun col : column =>
            Num.to_numeric_str (fst col) <> PosInf
            /\ Num.to_numeric_str (fst col) <> NegInf)
         (Acquisitions.value_columns df) ->
  Acquisitions.load_frame df
  = Ok (stable_sort Acquisitions.row_ltb
          (flat_map (Acquisitions.rows_of_column ids)
                    (Acquisitions.value_columns df))).
Proof.
  intros Hnd Hq Hl Hall. rewrite (load_frame_eq df Hnd), Hq, Hl.
  assert (E : mapM Acquisitions.cast
                (Acquisitions.dropna_Ano
                   (map Acquisitions.clean
                        (flat_map (Acquisitions.melt_column ids)
                                  (Acquisitions.value_columns df))))
              = Ok (flat_map (Acquisitions.rows_of_column ids)
                             (Acquisitions.value_columns df))).
  { induction Hall as [|col cols [Hp Hn] _ IH]; [reflexivity|].
    cbn [flat_map]. unfold Acquisitions.dropna_Ano in *.
    rewrite map_app, filter_app, mapM_app, IH.
    fold (Acquisitions.dropna_Ano
            (map Acquisitions.clean (Acquisitions.melt_column ids col))).
    rewrite (column_cast_ok ids col Hp Hn). reflexivity. }
  rewrite E. reflexivity.
Qed.


Lemma flat_map_nil {A B : Type} (l : list A) :
  flat_map (fun _ : A => @nil B) l = [].
Proof. induction l; cbn; auto. Qed.



Lemma well_formed_ids (df : frame) (ids : list cell) :
  Frame.well_formed df -> Frame.lookup "medicamento" df = Some ids ->
  List.length ids = Frame.nrows df.
Proof.
  intros [_ Hlen] Hl. apply lookup_Some_In in Hl.
  rewrite Forall_forall in Hlen. exact (Hlen _ Hl).
Qed.



Lemma melted_perm (ids : list cell) (df df' : frame) :
  Permutation df df' ->
  Permutation
    (Acquisitions.dropna_Ano
       (map Acquisitions.clean
            (flat_map (Acquisitions.melt_column ids)
                      (Acquisitions.value_columns df))))
    (Acquisitions.dropna_Ano
       (map Acquisitions.clean
            (flat_map (Acquisitions.melt_column ids)
                      (Acquisitions.value_columns df')))).
Proof.
  intros HP. apply filter_perm, Permutation_map, Permutation_flat_map.
  now apply filter_perm.
Qed.

(** C7, as amended.  In the reshape of the acquisitions table the value
    columns are the columns whose name is not [medicamento] in any letter
    case, and only those whose header reads as a number give rows, the
    year being the integer part of that number.  The identifier column is
    found by its name: moving it among the value columns does not change
    the result, and reordering the value columns gives the same rows,
    possibly in another order. *)
Theorem reshape_value_columns (df df' : frame) (rows : list Acquisitions.row) :
  NoDup (Frame.names df) ->
  Acquisitions.load_frame df = Ok rows ->
  Permutation df df' ->
  (exists ids,
      Frame.lookup "medicamento" df = Some ids
      /\ rows = stable_sort Acquisitions.row_ltb
                 (flat_map (Acquisitions.rows_of_column ids)
                           (Acquisitions.value_columns df)))
  /\ (exists rows',
         Acquisitions.load_frame df' = Ok rows' /\ Permutation rows rows')
  /\ (Acquisitions.value_columns df' = Acquisitions.value_columns df ->
      Acquisitions.load_frame df' = Ok rows).
Proof.
  intros Hnd Hload HP.
  split; [now apply load_frame_Ok|].
  assert (Hnd' : NoDup (Frame.names df'))
    by (eapply Permutation_NoDup; [apply names_perm, HP | exact Hnd]).
  rewrite (load_frame_eq df Hnd) in Hload.
  rewrite (load_frame_eq df' Hnd'), (lookup_perm df df' _ Hnd HP),
    (existsb_perm _ _ _ (names_perm _ _ HP)).
  destruct (existsb _ _); [discriminate Hload|].
  destruct (Frame.lookup "medicamento" df) as [ids|]; [|discriminate Hload].
  destruct (mapM Acquisitions.cast
              (Acquisitions.dropna_Ano
                 (map Acquisitions.clean
                      (flat_map (Acquisitions.melt_column ids)
                                (Acquisitions.value_columns df)))))
    as [pre|] eqn:Ep; cbn [bind] in Hload; [|discriminate Hload].
  injection Hload as <-. split.
  - destruct (mapM_perm _ _ _ _ (melted_perm ids df df' HP) Ep)
      as [pre' [Ep' HP']].
    rewrite Ep'. cbn [bind]. eexists. split; [reflexivity|].
    rewrite <- (stable_sort_perm _ pre), <- (stable_sort_perm _ pre').
    exact HP'.
  - intros ->. rewrite Ep. reflexivity.
Qed.

Lemma reshape_value_columns_witness :
  (exists ids,
      Frame.lookup "medicamento" Samples.wide = Some ids
      /\ stable_sort Acquisitions.row_ltb
           (flat_map
              (Acquisitions.rows_of_column [Txt "Fator VIII"; Txt "Fator IX"])
              (Acquisitions.value_columns Samples.wide))
         = stable_sort Acquisitions.row_ltb
             (flat_map (Acquisitions.rows_of_column ids)
                       (Acquisitions.value_columns Samples.wide)))
  /\ (exists rows',
         Acquisitions.load_frame Samples.wide_id_last = Ok rows'
         /\ Permutation
              (stable_sort Acquisitions.row_ltb
                 (flat_map
                    (Acquisitions.rows_of_column
                       [Txt "Fator VIII"; Txt "Fator IX"])
                    (Acquisitions.value_columns Samples.wide)))
              rows')
  /\ (Acquisitions.value_columns Samples.wide_id_last
      = Acquisitions.value_columns Samples.wide ->
      Acquisitions.load_frame Samples.wide_id_last
      = Ok (stable_sort Acquisitions.row_ltb
              (flat_map
                 (Acquisitions.rows_of_column [Txt "Fator VIII"; Txt "Fator IX"])
                 (Acquisitions.value_columns Samples.wide)))).
Proof.
  apply (reshape_value_columns Samples.wide Samples.wide_id_last).
  - repeat constructor; cbn; intuition discriminate.
  - vm_compute. reflexivity.
  - unfold Samples.wide, Samples.wide_id_last.
    apply (Permutation_cons_append
             [("2020", [Txt "3.100"; NA]); ("obs", [Txt "x"; Txt "y"]);
              ("2019", [Txt "1.234,56"; Txt "abc"])]
             ("medicamento", [Txt "Fator VIII"; Txt "Fator IX"])).
Defined.

(** C7, as stated, fails: the order of the value columns shows in the
    result when two headers denote the same year.  With the headers
    [2019] and [2019.0] the two rows of the year 2019 come out in the order
    of the columns. *)
Lemma column_order_shows :
  Frame.well_formed Samples.same_year
  /\ Permutation Samples.same_year Samples.same_year_swapped
  /\ Acquisitions.load_frame Samples.same_year
     = Ok [ Acquisitions.mk_row (Txt "Fator VIII") 2019 (Num.of_Z 1);
            Acquisitions.mk_row (Txt "Fator VIII") 2019 (Num.of_Z 2) ]
  /\ Acquisitions.load_frame Samples.same_year_swapped
     = Ok [ Acquisitions.mk_row (Txt "Fator VIII") 2019 (Num.of_Z 2);
            Acquisitions.mk_row (Txt "Fator VIII") 2019 (Num.of_Z 1) ]
  /\ Acquisitions.load_frame Samples.same_year
     <> Acquisitions.load_frame Samples.same_year_swapped.
Proof.
  split.
  { split; [repeat constructor; cbn; intuition discriminate
           | repeat constructor]. }
  split.
  { unfold Samples.same_year, Samples.same_year_swapped.
    apply perm_skip, perm_swap. }
  split; [vm_compute; reflexivity|].
  split; [vm_compute; reflexivity|].
  vm_compute. discriminate.
Qed.

(** ** Admissible sorts of the two single-key orders *)

Lemma ms_ltb_asym (x y : Hemo8R.ms_row) :
  Hemo8R.ms_ltb x y = true -> Hemo8R.ms_ltb y x = false.
Proof. apply num_ltb_asym. Qed.

Lemma ms_leb_trans (x y z : Hemo8R.ms_row) :
  Hemo8R.ms_ltb y x = false -> Hemo8R.ms_ltb z y = false ->
  Hemo8R.ms_ltb z x = false.
Proof. apply num_leb_trans. Qed.

Lemma total_ltb_asym (x y : Hemo8R.total) :
  Hemo8R.total_ltb x y = true -> Hemo8R.total_ltb y x = false.
Proof. unfold Hemo8R.total_ltb. lia. Qed.

Lemma total_leb_trans (x y z : Hemo8R.total) :
  Hemo8R.total_ltb y x = false -> Hemo8R.total_ltb z y = false ->
  Hemo8R.total_ltb z x = false.
Proof. unfold Hemo8R.total_ltb. lia. Qed.

Definition ms_insertion : sorter Hemo8R.ms_ltb :=
  insertion_sorter Hemo8R.ms_ltb ms_ltb_asym ms_leb_trans.

Definition total_insertion : sorter Hemo8R.total_ltb :=
  insertion_sorter Hemo8R.total_ltb total_ltb_asym total_leb_trans.


(** ** The loaders of [Hemo_8R.py] *)

Lemma dropna_periodo_In (l : list (Hemo8R.base_row * option Hemo8R.date))
    (r : Hemo8R.row) :
  In r (Hemo8R.dropna_periodo l) <-> exists p, In p l /\ Hemo8R.keep p = Some r.
Proof.
  induction l as [|p l IH]; cbn.
  - split; [contradiction | now intros [? [[] _]]].
  - destruct (Hemo8R.keep p) as [x|] eqn:E; cbn; rewrite IH; split.
    + intros [<-|[p' [Hp Hk]]]; [exists p; auto | exists p'; auto].
    + intros [p' [[<-|Hp] Hk]]; [left; congruence | right; exists p'; auto].
    + intros [p' [Hp Hk]]. exists p'; auto.
    + intros [p' [[<-|Hp] Hk]]; [congruence | exists p'; auto].
Qed.



Lemma ms_load_frame_Ok (qs : sorter Hemo8R.ms_ltb) (df : frame)
    (rows : list Hemo8R.ms_row) :
  Hemo8R.load_ms_frame qs df = Ok rows ->
  exists anos qtds,
    Hemo8R.numeric_col "Ano" (Hemo8R.rename df) = Ok anos
    /\ Hemo8R.numeric_col "Quantidade" (Hemo8R.rename df) = Ok qtds
    /\ rows
       = qs (filter Hemo8R.complete
               (map (fun i =>
                       Hemo8R.mk_ms (nth i anos NaN) (nth i qtds NaN)
                         (map (fun c => nth i c NA)
                              (Hemo8R.other_cols (Hemo8R.rename df))))
                    (seq 0 (Frame.nrows (Hemo8R.rename df))))).
Proof.
  unfold Hemo8R.load_ms_frame. intros H.
  destruct (Hemo8R.numeric_col "Ano" _) as [anos|]; [|discriminate H].
  destruct (Hemo8R.numeric_col "Quantidade" _) as [qtds|]; [|discriminate H].
  cbn [bind] in H. injection H as <-. now exists anos, qtds.
Qed.

Lemma ms_rows_complete (qs : sorter Hemo8R.ms_ltb) (df : frame)
    (rows : list Hemo8R.ms_row) (r : Hemo8R.ms_row) :
  Hemo8R.load_ms_frame qs df = Ok rows -> In r rows ->
  Num.isna (Hemo8R.Ano r) = false /\ Num.isna (Hemo8R.Quantidade r) = false.
Proof.
  intros H Hin. destruct (ms_load_frame_Ok qs df rows H) as [a [q [_ [_ ->]]]].
  apply (Permutation_in _ (Permutation_sym (argsort_perm _ qs _))) in Hin.
  apply filter_In in Hin as [_ Hc]. unfold Hemo8R.complete in Hc.
  apply andb_prop in Hc as [Hc _]. apply andb_prop in Hc as [Ha Hq].
  now rewrite negb_true_iff in Ha, Hq.
Qed.






Lemma numeric_col_Ok (name : string) (df : frame) (l : list num) :
  Hemo8R.numeric_col name df = Ok l ->
  exists cells, In (name, cells) df /\ l = map Frame.to_numeric cells.
Proof.
  unfold Hemo8R.numeric_col.
  destruct (filter _ df) as [|[n cells] [|c' rest]] eqn:E; try discriminate.
  intros H. injection H as <-. exists cells. split; [|reflexivity].
  assert (Hin : In (n, cells) (filter (fun c : column => String.eqb (fst c) name) df))
    by (rewrite E; now left).
  apply filter_In in Hin as [Hin Hn]. cbn in Hn.
  apply String.eqb_eq in Hn. now subst.
Qed.

(** C10.  [load_ms_data] reads [Ano] and [Quantidade] as plain numerals,
    with no dot removed and no comma converted: ["3.100"] is the number
    3.1 and ["1,5"] does not parse.  The rows it returns are the rows of the
    file none of whose cells is missing after that reading, so a row whose
    year or quantity does not parse is left out, not given a zero. *)
Theorem ms_loader_plain_numerals (quicksort : sorter Hemo8R.ms_ltb)
    (df : frame) (rows : list Hemo8R.ms_row) :
  Hemo8R.load_ms_frame quicksort df = Ok rows ->
  Frame.to_numeric (Txt "3.100") = Fin (31 # 10)
  /\ Frame.to_numeric (Txt "1,5") = NaN
  /\ (exists anos qtds,
         In ("Ano", anos) (Hemo8R.rename df)
         /\ In ("Quantidade", qtds) (Hemo8R.rename df)
         /\ Permutation rows
              (filter Hemo8R.complete
                 (map (fun i =>
                         Hemo8R.mk_ms
                           (Frame.to_numeric (nth i anos NA))
                           (Frame.to_numeric (nth i qtds NA))
                           (map (fun c => nth i c NA)
                                (Hemo8R.other_cols (Hemo8R.rename df))))
                      (seq 0 (Frame.nrows (Hemo8R.rename df))))))
  /\ (forall r, In r rows ->
        Num.isna (Hemo8R.Ano r) = false
        /\ Num.isna (Hemo8R.Quantidade r) = false).
Proof.
  intros H.
  split; [vm_compute; reflexivity|].
  split; [vm_compute; reflexivity|].
  split.
  - destruct (ms_load_frame_Ok quicksort df rows H) as [a [q [Ha [Hq ->]]]].
    apply numeric_col_Ok in Ha as [anos [Hanos ->]].
    apply numeric_col_Ok in Hq as [qtds [Hqtds ->]].
    exists anos, qtds. split; [exact Hanos|]. split; [exact Hqtds|].
    rewrite <- (argsort_perm _ quicksort).
    erewrite map_ext; [reflexivity|].
    intros i. cbn beta.
    now rewrite <- !(map_nth Frame.to_numeric).
  - intros r. now apply (ms_rows_complete quicksort df rows).
Qed.

Lemma ms_loader_plain_numerals_witness :
  Frame.to_numeric (Txt "3.100") = Fin (31 # 10)
  /\ Frame.to_numeric (Txt "1,5") = NaN
  /\ (exists anos qtds,
         In ("Ano", anos) (Hemo8R.rename Samples.ministry)
         /\ In ("Quantidade", qtds) (Hemo8R.rename Samples.ministry)
         /\ Permutation
              [ Hemo8R.mk_ms (Num.of_Z 2020) (Fin (31 # 10)) [];
                Hemo8R.mk_ms (Num.of_Z 2022) (Num.of_Z 7) [] ]
              (filter Hemo8R.complete
                 (map (fun i =>
                         Hemo8R.mk_ms
                           (Frame.to_numeric (nth i anos NA))
                           (Frame.to_numeric (nth i qtds NA))
                           (map (fun c => nth i c NA)
                                (Hemo8R.other_cols
                                   (Hemo8R.rename Samples.ministry))))
                      (seq 0 (Frame.nrows (Hemo8R.rename Samples.ministry))))))
  /\ (forall r,
        In r [ Hemo8R.mk_ms (Num.of_Z 2020) (Fin (31 # 10)) [];
               Hemo8R.mk_ms (Num.of_Z 2022) (Num.of_Z 7) [] ] ->
        Num.isna (Hemo8R.Ano r) = false
        /\ Num.isna (Hemo8R.Quantidade r) = false).
Proof.
  apply (ms_loader_plain_numerals ms_insertion Samples.ministry).
  vm_compute. reflexivity.
Defined.

(** ** The ranking *)

Section Sorted.

Context {A : Type} (R : A -> A -> Prop).




Lemma StronglySorted_impl (R' : A -> A -> Prop) (l : list A) :
  (forall x y, R x y -> R' x y) -> StronglySorted R l -> StronglySorted R' l.
Proof.
  intros Himp. induction 1 as [|x l Hs IH Hx]; constructor; [exact IH|].
  rewrite Forall_forall in *. intros y Hy. now apply Himp, Hx.
Qed.


End Sorted.

Lemma sort_values_desc_perm (qs : sorter Hemo8R.total_ltb)
    (totals : list Hemo8R.total) :
  Permutation totals (Hemo8R.sort_values_desc qs totals).
Proof.
  unfold Hemo8R.sort_values_desc.
  rewrite <- Permutation_rev, <- (argsort_perm _ qs). apply Permutation_rev.
Qed.







(** ** The autodetecting loader *)



(** ** The period parser *)

Lemma append_assoc (s t u : string) : (s ++ t) ++ u = s ++ (t ++ u).
Proof. induction s as [|a s IH]; cbn; [reflexivity | now rewrite IH]. Qed.

Lemma rev_onto_app (acc s t : string) :
  PyStr.rev_onto acc (s ++ t) = PyStr.rev_onto (PyStr.rev_onto acc s) t.
Proof. revert acc. induction s as [|a s IH]; intros acc; cbn; auto. Qed.

Lemma rev_onto_spec (acc s : string) :
  PyStr.rev_onto acc s = PyStr.rev s ++ acc.
Proof.
  unfold PyStr.rev. revert acc.
  induction s as [|a s IH]; intros acc; cbn; [reflexivity|].
  rewrite IH, (IH (String a "")), append_assoc. reflexivity.
Qed.

Lemma rev_app (s t : string) : PyStr.rev (s ++ t) = PyStr.rev t ++ PyStr.rev s.
Proof.
  unfold PyStr.rev at 1. rewrite rev_onto_app, rev_onto_spec. reflexivity.
Qed.

Lemma rev_cons (a : ascii) (s : string) :
  PyStr.rev (String a s) = PyStr.rev s ++ String a "".
Proof. unfold PyStr.rev at 1. cbn. apply rev_onto_spec. Qed.

Lemma rev_involutive (s : string) : PyStr.rev (PyStr.rev s) = s.
Proof.
  induction s as [|a s IH]; [reflexivity|].
  rewrite rev_cons, rev_app, IH. reflexivity.
Qed.

Lemma starts_with_high (t u : string) (c : ascii) (v : string) :
  high t = true -> low c = true ->
  PyStr.starts_with t (u ++ String c v) = true ->
  (String.length t <= String.length u)%nat.
Proof.
  intros Ht Hc. revert u Ht.
  induction t as [|y t IH]; intros u Ht H; cbn; [lia|].
  cbn in Ht. apply andb_prop in Ht as [Hy Ht].
  destruct u as [|x u]; cbn in H.
  - apply andb_prop in H as [H _]. apply Ascii.eqb_eq in H. subst y.
    unfold low in Hc. apply andb_prop in Hc as [Hc _].
    apply N.leb_le in Hy. apply N.ltb_lt in Hc. lia.
  - apply andb_prop in H as [_ H]. specialize (IH u Ht H). cbn. lia.
Qed.

Lemma find_wide_space (toks : list string) (s t : string) :
  forallb wide_space toks = true ->
  find (fun t => PyStr.starts_with t s) toks = Some t ->
  high t = true /\ t <> "" /\ PyStr.starts_with t s = true.
Proof.
  intros Hall Hf. apply find_some in Hf as [Hin Hs].
  rewrite forallb_forall in Hall. specialize (Hall t Hin).
  unfold wide_space in Hall. apply andb_prop in Hall as [Hh Hne].
  repeat split; auto. intros ->. discriminate Hne.
Qed.

Lemma lstrip_low (toks : list string) (c : ascii) (v : string) :
  forallb wide_space toks = true -> low c = true ->
  PyStr.lstrip_from toks O (String c v) = String c v.
Proof.
  intros Hall Hc. cbn [PyStr.lstrip_from]. unfold PyStr.space_width.
  pose proof Hc as Hc'. unfold low in Hc'. apply andb_prop in Hc' as [_ Hs].
  apply negb_true_iff in Hs. rewrite Hs.
  destruct (find _ toks) as [t|] eqn:Ef; [|reflexivity].
  apply (find_wide_space toks) in Ef as [Hh [Hne Hst]]; [|exact Hall].
  apply (starts_with_high t "" c v Hh Hc) in Hst.
  destruct t; [congruence | cbn in Hst; lia].
Qed.

Lemma lstrip_keeps (toks : list string) (c : ascii) (v : string) :
  forallb wide_space toks = true -> low c = true ->
  forall n u skip,
    (String.length u <= n)%nat -> (skip <= String.length u)%nat ->
    exists u', PyStr.lstrip_from toks skip (u ++ String c v) = u' ++ String c v.
Proof.
  intros Hall Hc. induction n as [|n IH]; intros u skip Hn Hk.
  - destruct u; [|cbn in Hn; lia]. cbn in Hk.
    assert (skip = O) as -> by lia.
    exists "". cbn [append]. now apply lstrip_low.
  - destruct u as [|x u].
    + cbn in Hk. assert (skip = O) as -> by lia.
      exists "". cbn [append]. now apply lstrip_low.
    + cbn in Hn, Hk. cbn [append PyStr.lstrip_from].
      destruct skip as [|k]; [|apply IH; lia].
      destruct (PyStr.space_width toks (String x (u ++ String c v)))
        as [|k] eqn:Ew; [now exists (String x u)|].
      apply IH; [lia|].
      unfold PyStr.space_width in Ew.
      destruct (PyStr.ascii_space x); [injection Ew as <-; lia|].
      destruct (find _ toks) as [t|] eqn:Ef; [|discriminate Ew].
      apply (find_wide_space toks) in Ef as [Hh [_ Hst]]; [|exact Hall].
      apply (starts_with_high t (String x u) c v Hh Hc) in Hst.
      cbn in Hst. lia.
Qed.

(** [strip] leaves alone a text up to its last ASCII character that is
    not a blank. *)
Lemma strip_keeps (c0 : ascii) (P : string) (c : ascii) (rest : string) :
  low c0 = true -> low c = true ->
  exists rest',
    PyStr.strip (String c0 P ++ String c rest) = String c0 P ++ String c rest'.
Proof.
  intros H0 Hc. unfold PyStr.strip, PyStr.lstrip, PyStr.rstrip.
  cbn [append]. rewrite lstrip_low; [|reflexivity|exact H0].
  change (String c0 (P ++ String c rest))
    with (String c0 P ++ String c rest).
  rewrite rev_app, rev_cons, append_assoc. cbn [append].
  destruct (lstrip_keeps (map PyStr.rev PyStr.wide_spaces) c
              (PyStr.rev (String c0 P)) eq_refl Hc
              (String.length (PyStr.rev rest)) (PyStr.rev rest) O
              (le_n _) (Nat.le_0_l _)) as [u' Hu].
  rewrite Hu. exists (PyStr.rev u').
  rewrite rev_app, rev_cons, rev_involutive, append_assoc. reflexivity.
Qed.

Lemma digit_facts (a : ascii) :
  Num.is_digit a = true ->
  Hemo8R.is_az a = false
  /\ low a = true
  /\ Ascii.eqb a "/" = false
  /\ Ascii.eqb a (PyStr.b 195) = false
  /\ PyStr.lower_ascii a = a
  /\ (PyStr.code a =? 195)%N = false
  /\ 0 <= Num.digit_val a <= 9.
Proof.
  destruct a as [[] [] [] [] [] [] [] []]; vm_compute; intros H;
    try discriminate H; repeat split; intros E; discriminate E.
Qed.

Lemma lower_digit (a : ascii) (Y : string) :
  Num.is_digit a = true ->
  PyStr.lower_from false (String a Y) = String a (PyStr.lower_from false Y).
Proof.
  intros H. destruct (digit_facts a H) as [_ [_ [_ [_ [Hl [Hc _]]]]]].
  cbn [PyStr.lower_from]. now rewrite Hl, Hc.
Qed.

Lemma lower_slash (Y : string) :
  PyStr.lower_from false (String "/" Y) = String "/" (PyStr.lower_from false Y).
Proof. reflexivity. Qed.

Lemma letters_then_digit (acc : string) (a : ascii) (Y : string) :
  Num.is_digit a = true -> Hemo8R.letters_then acc (String a Y) = None.
Proof.
  intros H. destruct (digit_facts a H) as [Haz [_ [_ [H195 _]]]].
  cbn [Hemo8R.letters_then]. rewrite Haz, H195. now destruct Y.
Qed.

Lemma letters_then_slash (acc : string) (Y : string) :
  Hemo8R.letters_then acc (String "/" Y) = None.
Proof. now destruct Y. Qed.

Lemma year_group_digits (a b : ascii) (Y : string) :
  Num.is_digit a = true -> Num.is_digit b = true ->
  Hemo8R.year_group (String a (String b Y)) = Some (String a (String b "")).
Proof.
  intros Ha Hb. unfold Hemo8R.year_group. cbn [Hemo8R.digits_n].
  now rewrite Ha, Hb.
Qed.

Lemma sep_year_slash (a b : ascii) (Y : string) :
  Num.is_digit a = true -> Num.is_digit b = true ->
  Hemo8R.sep_year (String "/" (String a (String b Y)))
  = Some (String a (String b "")).
Proof.
  intros Ha Hb. cbn [Hemo8R.sep_year]. change (Hemo8R.sep_year _)
    with (match Hemo8R.year_group (String a (String b Y)) with
          | Some ds => Some ds
          | None => Hemo8R.year_group (String "/" (String a (String b Y)))
          end).
  now rewrite year_group_digits.
Qed.

Lemma sep_year_digits (a b : ascii) (Y : string) :
  Num.is_digit a = true -> Num.is_digit b = true ->
  Hemo8R.sep_year (String a (String b Y)) = Some (String a (String b "")).
Proof.
  intros Ha Hb.
  assert (E : Hemo8R.sep_year (String a (String b Y))
              = Hemo8R.year_group (String a (String b Y))).
  { destruct (digit_facts a Ha) as [_ [_ [Hs _]]].
    destruct a as [[] [] [] [] [] [] [] []]; try reflexivity.
    discriminate Hs. }
  rewrite E. now apply year_group_digits.
Qed.

Ltac month_ok_tac :=
  split; [eexists; eexists; split; reflexivity|];
  split; [intros Y; reflexivity|];
  split; [|reflexivity];
  intros X ds Hl Hs; unfold Hemo8R.re_match;
  cbn -[Hemo8R.sep_year]; rewrite Hl, Hs; reflexivity.

Lemma meses_ok (mon : string) (mes : Z) :
  In (mon, mes) Hemo8R.meses -> month_ok mon mes.
Proof.
  intros H. cbn in H.
  repeat (destruct H as [H|H]; [injection H as <- <-; month_ok_tac|]).
  contradiction.
Qed.

Lemma get_In (k : string) (v : Z) (d : list (string * Z)) :
  Hemo8R.get k d = Some v -> In (k, v) d.
Proof.
  induction d as [|[k' v'] d IH]; cbn; [discriminate|].
  destruct (String.eqb_spec k' k) as [->|Hne]; intros H.
  - injection H as ->. now left.
  - right. now apply IH.
Qed.

Lemma digits_n_2_4 (s : string) :
  Hemo8R.digits_n 2 s = None -> Hemo8R.digits_n 4 s = None.
Proof.
  destruct s as [|a [|b s]]; cbn; try reflexivity.
  - now destruct (Num.is_digit a).
  - destruct (Num.is_digit a); [|reflexivity].
    destruct (Num.is_digit b); [discriminate | reflexivity].
Qed.

Lemma year_group_two (s ds : string) :
  Hemo8R.year_group s = Some ds -> two_digits ds.
Proof.
  unfold Hemo8R.year_group.
  destruct (Hemo8R.digits_n 2 s) as [[ds' r]|] eqn:E.
  - intros H. injection H as <-.
    destruct s as [|a [|b s]]; cbn in E; try discriminate E.
    + destruct (Num.is_digit a); discriminate E.
    + destruct (Num.is_digit a) eqn:Ha; [|discriminate E].
      destruct (Num.is_digit b) eqn:Hb; [|discriminate E].
      injection E as <- _. now exists a, b.
  - now rewrite (digits_n_2_4 s E).
Qed.

Lemma sep_year_two (s ds : string) :
  Hemo8R.sep_year s = Some ds -> two_digits ds.
Proof.
  assert (G : forall t,
             match Hemo8R.year_group t with
             | Some x => Some x
             | None => Hemo8R.year_group s
             end = Some ds -> two_digits ds).
  { intros t. destruct (Hemo8R.year_group t) eqn:E.
    - intros H. injection H as <-. now apply (year_group_two t).
    - apply year_group_two. }
  destruct s as [|a s']; [apply year_group_two|].
  destruct a as [[] [] [] [] [] [] [] []];
    try apply year_group_two. apply (G s').
Qed.

Lemma letters_then_two (n : nat) :
  forall s acc g1 g2,
    (String.length s <= n)%nat ->
    Hemo8R.letters_then acc s = Some (g1, g2) -> two_digits g2.
Proof.
  induction n as [|n IH]; intros s acc g1 g2 Hn H.
  - destruct s; [discriminate H | cbn in Hn; lia].
  - destruct s as [|a s1]; [discriminate H|]. cbn in Hn.
    cbn [Hemo8R.letters_then] in H.
    destruct (Hemo8R.is_az a).
    + destruct (Hemo8R.letters_then (String a acc) s1) as [r|] eqn:E.
      * injection H as ->. apply (IH s1 (String a acc) g1 g2); [lia | exact E].
      * destruct (Hemo8R.sep_year s1) as [ds|] eqn:Es; [|discriminate H].
        injection H as _ <-. now apply (sep_year_two s1).
    + destruct s1 as [|a' s2]; [discriminate H|].
      destruct (Ascii.eqb a (PyStr.b 195) && Ascii.eqb a' (PyStr.b 167));
        [|discriminate H].
      destruct (Hemo8R.letters_then (String a' (String a acc)) s2)
        as [r|] eqn:E.
      * injection H as ->.
        apply (IH s2 (String a' (String a acc)) g1 g2); [cbn in Hn; lia | exact E].
      * destruct (Hemo8R.sep_year s2) as [ds|] eqn:Es; [|discriminate H].
        injection H as _ <-. now apply (sep_year_two s2).
Qed.

Lemma int_of_two_digits (a b : ascii) :
  Num.is_digit a = true -> Num.is_digit b = true ->
  Hemo8R.int_of_digits (String a (String b ""))
  = 10 * Num.digit_val a + Num.digit_val b.
Proof.
  intros Ha Hb. unfold Hemo8R.int_of_digits. cbn [Num.digits].
  rewrite Ha, Hb. lia.
Qed.

Lemma parse_periodo_range (c : cell) (d : Hemo8R.date) :
  Hemo8R.parse_periodo c = Some d ->
  2000 <= Hemo8R.year d <= 2099 /\ 1 <= Hemo8R.month d <= 12
  /\ Hemo8R.day d = 1.
Proof.
  unfold Hemo8R.parse_periodo.
  destruct (Hemo8R.re_match _) as [[g1 g2]|] eqn:E; [|discriminate].
  apply (letters_then_two _ _ _ _ _ (le_n _)) in E as [a [b [-> [Ha Hb]]]].
  rewrite (int_of_two_digits a b Ha Hb).
  destruct (digit_facts a Ha) as [_ [_ [_ [_ [_ [_ Hra]]]]]].
  destruct (digit_facts b Hb) as [_ [_ [_ [_ [_ [_ Hrb]]]]]].
  destruct (Hemo8R.get _ Hemo8R.meses) as [mes|] eqn:Eg; [|discriminate].
  set (v := 10 * Num.digit_val a + Num.digit_val b).
  set (y := if v <? 100 then 2000 + v else v).
  assert (Hy : 2000 <= y <= 2099)
    by (subst y v; destruct (Z.ltb_spec
                               (10 * Num.digit_val a + Num.digit_val b) 100);
        lia).
  clearbody y. intros H. injection H as <-.
  cbn [Hemo8R.year Hemo8R.month Hemo8R.day].
  split; [exact Hy|]. split; [|reflexivity]. apply get_In in Eg. cbn in Eg.
  repeat (destruct Eg as [Eg|Eg]; [injection Eg as _ <-; lia|]).
  contradiction.
Qed.

(** C8.  [parse_periodo] matches a prefix: a text that begins with a month
    name of the table followed, with or without [/], by two digits parses,
    whatever comes after the two digits, and the year is 2000 plus the
    number the two digits write.  The second group of the pattern always
    has two digits, so the branch for a four-digit year is never taken and
    every date the parser gives has its year between 2000 and 2099:
    ["janeiro19"] is January 2019 and ["dezembro/2023"] is December
    2020. *)
Theorem parse_periodo_prefix (mon : string) (mes : Z) (sep : string)
    (a b : ascii) (rest : string) :
  In (mon, mes) Hemo8R.meses ->
  sep = "" \/ sep = "/" ->
  Num.is_digit a = true -> Num.is_digit b = true ->
  Hemo8R.parse_periodo (Txt (mon ++ sep ++ String a (String b rest)))
  = Some (Hemo8R.mk_date (2000 + (10 * Num.digit_val a + Num.digit_val b))
                         mes 1)
  /\ (forall s g1 g2,
        Hemo8R.re_match s = Some (g1, g2) -> String.length g2 = 2%nat)
  /\ (forall c d,
        Hemo8R.parse_periodo c = Some d ->
        2000 <= Hemo8R.year d <= 2099 /\ 1 <= Hemo8R.month d <= 12
        /\ Hemo8R.day d = 1)
  /\ Hemo8R.parse_periodo (Txt "janeiro19") = Some (Hemo8R.mk_date 2019 1 1)
  /\ Hemo8R.parse_periodo (Txt "dezembro/2023")
     = Some (Hemo8R.mk_date 2020 12 1).
Proof.
  intros Hmon Hsep Ha Hb.
  split; [|split; [|split; [exact parse_periodo_range|]]].
  - destruct (meses_ok mon mes Hmon) as [[c0 [P [-> H0]]] [Hlow [Hre Hget]]].
    destruct (digit_facts a Ha) as [_ [_ [_ [_ [_ [_ Hra]]]]]].
    destruct (digit_facts b Hb) as [_ [Hlb [_ [_ [_ [_ Hrb]]]]]].
    unfold Hemo8R.parse_periodo. cbn [Frame.str].
    assert (Hstrip : exists rest',
               PyStr.strip (String c0 P ++ sep ++ String a (String b rest))
               = String c0 P ++ sep ++ String a (String b rest')).
    { destruct (strip_keeps c0 (P ++ sep ++ String a "") b rest H0 Hlb)
        as [rest' Hr].
      exists rest'.
      change (String c0 (P ++ sep ++ String a "")) with
        (String c0 P ++ sep ++ String a "") in Hr.
      rewrite !append_assoc in Hr. exact Hr. }
    destruct Hstrip as [rest' ->].
    unfold PyStr.lower. rewrite Hlow.
    assert (Hx : exists Y,
               PyStr.lower_from false (sep ++ String a (String b rest'))
               = sep ++ String a (String b Y)).
    { exists (PyStr.lower_from false rest').
      destruct Hsep as [-> | ->]; cbn [append]; rewrite ?lower_slash;
        rewrite (lower_digit a _ Ha), (lower_digit b _ Hb); reflexivity. }
    destruct Hx as [Y ->].
    rewrite (Hre (sep ++ String a (String b Y)) (String a (String b ""))).
    + rewrite Hget, (int_of_two_digits a b Ha Hb).
      destruct (Z.ltb_spec (10 * Num.digit_val a + Num.digit_val b) 100);
        [reflexivity | lia].
    + intros acc. destruct Hsep as [-> | ->]; cbn [append].
      * now apply letters_then_digit.
      * apply letters_then_slash.
    + destruct Hsep as [-> | ->]; cbn [append].
      * now apply sep_year_digits.
      * now apply sep_year_slash.
  - intros s g1 g2 H.
    apply (letters_then_two _ _ _ _ _ (le_n _)) in H as [x [y [-> _]]].
    reflexivity.
  - split; vm_compute; reflexivity.
Qed.

Lemma parse_periodo_prefix_witness :
  Hemo8R.parse_periodo (Txt ("março" ++ "" ++ String "2" (String "1" "x")))
  = Some (Hemo8R.mk_date
            (2000 + (10 * Num.digit_val "2" + Num.digit_val "1")) 3 1)
  /\ (forall s g1 g2,
        Hemo8R.re_match s = Some (g1, g2) -> String.length g2 = 2%nat)
  /\ (forall c d,
        Hemo8R.parse_periodo c = Some d ->
        2000 <= Hemo8R.year d <= 2099 /\ 1 <= Hemo8R.month d <= 12
        /\ Hemo8R.day d = 1)
  /\ Hemo8R.parse_periodo (Txt "janeiro19") = Some (Hemo8R.mk_date 2019 1 1)
  /\ Hemo8R.parse_periodo (Txt "dezembro/2023")
     = Some (Hemo8R.mk_date 2020 12 1).
Proof.
  apply (parse_periodo_prefix "março" 3 "" "2" "1" "x").
  - cbn. right. right. now left.
  - now left.
  - reflexivity.
  - reflexivity.
Defined.

(** ** The page of the distribution by service *)






(** * Further properties of the pages *)

(** ** The order of texts *)

Lemma str_ltb_lt (s t : string) :
  PyStr.ltb s t = true <-> OrderedTypeEx.String_as_OT.lt s t.
Proof.
  rewrite <- OrderedTypeEx.String_as_OT.cmp_lt.
  unfold PyStr.ltb, OrderedTypeEx.String_as_OT.cmp.
  destruct (String.compare s t); split; congruence.
Qed.

Lemma str_ltb_trans (s t u : string) :
  PyStr.ltb s t = true -> PyStr.ltb t u = true -> PyStr.ltb s u = true.
Proof.
  rewrite !str_ltb_lt. apply OrderedTypeEx.String_as_OT.lt_trans.
Qed.

Lemma str_ltb_irrefl (s : string) : PyStr.ltb s s = false.
Proof.
  unfold PyStr.ltb.
  pose proof (proj2 (OrderedTypeEx.String_as_OT.cmp_eq s s) eq_refl) as H.
  unfold OrderedTypeEx.String_as_OT.cmp in H. now rewrite H.
Qed.

Lemma str_ltb_total (s t : string) :
  s <> t -> PyStr.ltb s t = false -> PyStr.ltb t s = true.
Proof.
  unfold PyStr.ltb. intros Hne.
  pose proof (OrderedTypeEx.String_as_OT.cmp_antisym t s) as Ha.
  pose proof (OrderedTypeEx.String_as_OT.cmp_eq s t) as He.
  unfold OrderedTypeEx.String_as_OT.cmp in *.
  rewrite Ha. destruct (String.compare s t); cbn; try congruence.
  intros _. exfalso. apply Hne. now apply He.
Qed.

Lemma str_ltb_asym (s t : string) :
  PyStr.ltb s t = true -> PyStr.ltb t s = false.
Proof.
  intros H. destruct (PyStr.ltb t s) eqn:E; [|reflexivity].
  pose proof (str_ltb_trans s t s H E) as Hs.
  rewrite str_ltb_irrefl in Hs. discriminate Hs.
Qed.

Lemma str_leb_trans (s t u : string) :
  PyStr.ltb t s = false -> PyStr.ltb u t = false -> PyStr.ltb u s = false.
Proof.
  intros H1 H2. destruct (PyStr.ltb u s) eqn:E; [|reflexivity].
  destruct (String.eqb_spec s t) as [->|Hne]; [congruence|].
  pose proof (str_ltb_total t s (not_eq_sym Hne) H1) as Hst.
  rewrite (str_ltb_trans u s t E Hst) in H2. discriminate H2.
Qed.

Lemma cell_ltb_asym (x y : cell) :
  Frame.cell_ltb x y = true -> Frame.cell_ltb y x = false.
Proof.
  destruct x as [|s], y as [|t]; cbn; try congruence. apply str_ltb_asym.
Qed.

Lemma cell_leb_trans (x y z : cell) :
  Frame.cell_ltb y x = false -> Frame.cell_ltb z y = false ->
  Frame.cell_ltb z x = false.
Proof.
  destruct x as [|s], y as [|t], z as [|u]; cbn; try congruence.
  apply str_leb_trans.
Qed.

Lemma row_ltb_asym (x y : Acquisitions.row) :
  Acquisitions.row_ltb x y = true -> Acquisitions.row_ltb y x = false.
Proof.
  unfold Acquisitions.row_ltb. intros H.
  apply orb_true_iff in H as [H|H].
  - apply Z.ltb_lt in H. apply orb_false_iff. split; [lia|].
    apply andb_false_iff. left. lia.
  - apply andb_true_iff in H as [He Hc]. apply Z.eqb_eq in He.
    apply orb_false_iff. split; [lia|].
    apply andb_false_iff. right. now apply cell_ltb_asym.
Qed.

Lemma row_ltb_false (x y : Acquisitions.row) :
  Acquisitions.row_ltb y x = false <->
  Acquisitions.Ano x < Acquisitions.Ano y
  \/ (Acquisitions.Ano x = Acquisitions.Ano y
      /\ Frame.cell_ltb (Acquisitions.medicamento y)
                        (Acquisitions.medicamento x) = false).
Proof.
  unfold Acquisitions.row_ltb. rewrite orb_false_iff, andb_false_iff.
  rewrite Z.ltb_ge, Z.eqb_neq. split.
  - intros [H1 [H2|H2]]; [left; lia|].
    destruct (Z.eq_dec (Acquisitions.Ano x) (Acquisitions.Ano y));
      [right; auto | left; lia].
  - intros [H|[H1 H2]].
    + split; [lia | left; lia].
    + split; [lia | now right].
Qed.

Lemma row_leb_trans (x y z : Acquisitions.row) :
  Acquisitions.row_ltb y x = false -> Acquisitions.row_ltb z y = false ->
  Acquisitions.row_ltb z x = false.
Proof.
  rewrite !row_ltb_false. intros [H1|[H1 C1]] [H2|[H2 C2]].
  - left; lia.
  - left; lia.
  - left; lia.
  - right. split; [lia|]. now apply cell_leb_trans with (Acquisitions.medicamento y).
Qed.

(** ** The table of the acquisitions loader *)

(** X2.  The table the acquisitions loader returns is in the order of
    the years and, within a year, of the names of the medicines, a
    missing name after the others. *)
Theorem acquisitions_rows_sorted (df : frame) (rows : list Acquisitions.row) :
  NoDup (Frame.names df) ->
  Acquisitions.load_frame df = Ok rows ->
  StronglySorted
    (fun x y =>
       Acquisitions.Ano x < Acquisitions.Ano y
       \/ (Acquisitions.Ano x = Acquisitions.Ano y
           /\ Frame.cell_ltb (Acquisitions.medicamento y)
                             (Acquisitions.medicamento x) = false))
    rows.
Proof.
  intros Hnd H. destruct (load_frame_Ok df rows Hnd H) as [ids [_ ->]].
  eapply StronglySorted_impl;
    [|apply (stable_sort_sorted Acquisitions.row_ltb row_ltb_asym row_leb_trans)].
  intros x y Hxy. now apply row_ltb_false.
Qed.

Lemma acquisitions_rows_sorted_witness :
  StronglySorted
    (fun x y =>
       Acquisitions.Ano x < Acquisitions.Ano y
       \/ (Acquisitions.Ano x = Acquisitions.Ano y
           /\ Frame.cell_ltb (Acquisitions.medicamento y)
                             (Acquisitions.medicamento x) = false))
    [ Acquisitions.mk_row (Txt "Fator IX") 2019 (Num.of_Z 0);
      Acquisitions.mk_row (Txt "Fator VIII") 2019 (Fin (30864 # 25));
      Acquisitions.mk_row (Txt "Fator IX") 2020 (Num.of_Z 0);
      Acquisitions.mk_row (Txt "Fator VIII") 2020 (Num.of_Z 3100) ].
Proof.
  apply (acquisitions_rows_sorted Samples.wide).
  - repeat constructor; cbn; intuition discriminate.
  - vm_compute. reflexivity.
Defined.

Lemma rows_of_column_length (ids : list cell) (col : column) :
  negb (String.eqb (PyStr.lower (fst col)) "medicamento") = true ->
  List.length (Acquisitions.rows_of_column ids col)
  = if Acquisitions.is_year_column col
    then Nat.min (List.length ids) (List.length (snd col))
    else O.
Proof.
  unfold Acquisitions.rows_of_column, Acquisitions.is_year_column.
  intros ->. cbn [andb].
  destruct (Num.to_numeric_str (fst col)); cbn [List.length];
    rewrite ?length_map, ?length_combine; reflexivity.
Qed.

(** X3.  The reshape neither loses nor adds a cell: on a rectangular
    table the loader returns one row for each cell of each year column,
    whatever the cell holds. *)
Theorem acquisitions_row_count (df : frame) (rows : list Acquisitions.row) :
  Frame.well_formed df ->
  Acquisitions.load_frame df = Ok rows ->
  List.length rows
  = (List.length (filter Acquisitions.is_year_column df) * Frame.nrows df)%nat.
Proof.
  intros Hwf H.
  destruct (load_frame_Ok df rows (proj1 Hwf) H) as [ids [Hl ->]].
  rewrite <- (Permutation_length (stable_sort_perm _ _)).
  pose proof (well_formed_ids df ids Hwf Hl) as Hids.
  destruct Hwf as [_ Hlen]. unfold Acquisitions.value_columns.
  clear H Hl. revert Hids Hlen. generalize (Frame.nrows df). intros n Hids Hlen.
  induction Hlen as [|col cols Hc _ IH]; [reflexivity|].
  cbn [filter].
  destruct (negb (String.eqb (PyStr.lower (fst col)) "medicamento")) eqn:En.
  - cbn [flat_map]. rewrite length_app, IH, (rows_of_column_length ids col En).
    destruct (Acquisitions.is_year_column col); cbn [List.length Nat.mul];
      [|reflexivity].
    rewrite Hids, Hc, Nat.min_id. reflexivity.
  - unfold Acquisitions.is_year_column at 1. rewrite En. exact IH.
Qed.

Lemma acquisitions_row_count_witness :
  List.length
    [ Acquisitions.mk_row (Txt "Fator IX") 2019 (Num.of_Z 0);
      Acquisitions.mk_row (Txt "Fator VIII") 2019 (Fin (30864 # 25));
      Acquisitions.mk_row (Txt "Fator IX") 2020 (Num.of_Z 0);
      Acquisitions.mk_row (Txt "Fator VIII") 2020 (Num.of_Z 3100) ]
  = (List.length (filter Acquisitions.is_year_column Samples.wide)
     * Frame.nrows Samples.wide)%nat.
Proof.
  apply (acquisitions_row_count Samples.wide).
  - split; [repeat constructor; cbn; intuition discriminate
           | repeat constructor].
  - vm_compute. reflexivity.
Defined.








(** ** The filters and the metrics of the acquisitions page *)

Section Unique.

Context {A : Type} (eqb : A -> A -> bool).
Hypothesis eqb_eq : forall x y, eqb x y = true <-> x = y.

Lemma existsb_eqb_In (x : A) (l : list A) :
  existsb (eqb x) l = true <-> In x l.
Proof.
  rewrite existsb_exists. split.
  - intros [y [Hy E]]. apply eqb_eq in E. now subst.
  - intros H. exists x. split; [exact H | now apply eqb_eq].
Qed.

Lemma unique_from_In (seen l : list A) (x : A) :
  In x (unique_from eqb seen l) <-> In x l /\ ~ In x seen.
Proof.
  revert seen. induction l as [|y l IH]; intros seen; cbn; [tauto|].
  destruct (existsb (eqb y) seen) eqn:E.
  - apply existsb_eqb_In in E. rewrite IH. split.
    + intros [H1 H2]. auto.
    + intros [[<-|H1] H2]; [contradiction | auto].
  - assert (Hy : ~ In y seen)
      by (intros H; apply existsb_eqb_In in H; congruence).
    cbn. rewrite IH. cbn. split.
    + intros [<-|[H1 H2]];
        [split; [now left | exact Hy] | split; [now right | tauto]].
    + intros [[<-|H1] H2]; [now left|].
      destruct (eqb y x) eqn:Ex.
      * apply eqb_eq in Ex. now left.
      * right. split; [exact H1|]. intros [->|H]; [|contradiction].
        rewrite (proj2 (eqb_eq x x) eq_refl) in Ex. discriminate Ex.
Qed.

Lemma unique_In (l : list A) (x : A) : In x (unique eqb l) <-> In x l.
Proof. unfold unique. rewrite unique_from_In. cbn. tauto. Qed.

Lemma unique_from_NoDup (seen l : list A) : NoDup (unique_from eqb seen l).
Proof.
  revert seen. induction l as [|y l IH]; intros seen; cbn; [constructor|].
  destruct (existsb (eqb y) seen); [apply IH|].
  constructor; [|apply IH]. rewrite unique_from_In. cbn. tauto.
Qed.

End Unique.

Lemma cell_eqb_eq (x y : cell) : Frame.cell_eqb x y = true <-> x = y.
Proof.
  destruct x as [|s], y as [|t]; cbn; try (split; congruence).
  rewrite String.eqb_eq. split; congruence.
Qed.




Lemma filter_all {A : Type} (p : A -> bool) (l : list A) :
  (forall x, In x l -> p x = true) -> filter p l = l.
Proof.
  induction l as [|x l IH]; cbn; intros H; [reflexivity|].
  rewrite (H x (or_introl eq_refl)), IH; [reflexivity|].
  intros y Hy. apply H. now right.
Qed.






(** ** The table of the distribution by service *)

Lemma map_nth_seq {A : Type} (d : A) (l : list A) :
  map (fun i => nth i l d) (seq 0 (List.length l)) = l.
Proof.
  induction l as [|a l IH]; cbn; [reflexivity|].
  f_equal. rewrite <- seq_shift, map_map. exact IH.
Qed.

Lemma dropna_periodo_texts (bs : list Hemo8R.base_row) :
  map (fun r => Hemo8R.Periodo_de_saida (Hemo8R.base r))
      (Hemo8R.dropna_periodo
         (map (fun b => (b, Hemo8R.parse_periodo (Hemo8R.Periodo_de_saida b)))
              bs))
  = filter Hemo8R.parses (map Hemo8R.Periodo_de_saida bs).
Proof.
  induction bs as [|b bs IH]; cbn [map Hemo8R.dropna_periodo filter];
    [reflexivity|].
  unfold Hemo8R.keep, Hemo8R.parses at 1. cbn [fst snd].
  destruct (Hemo8R.parse_periodo (Hemo8R.Periodo_de_saida b)); cbn [map];
    rewrite IH; reflexivity.
Qed.

Lemma clean_ui_nth (cs : list cell) (us : list Z) (i : nat) :
  mapM Hemo8R.clean_ui cs = Ok us ->
  Hemo8R.clean_ui (nth i cs NA) = Ok (nth i us 0).
Proof.
  intros H. apply mapM_Ok_Forall2 in H. revert i.
  induction H as [|c u cs us Hcu _ IH]; intros [|i]; cbn [nth];
    try reflexivity; [exact Hcu | apply IH].
Qed.

(** X6.  The table [load_data] returns holds, in the order of the file,
    the rows of the file whose period parses, and each of them carries the
    texts of its own file row, the integers its own UI cells clean to and
    the date its own period parses to. *)
Theorem load_data_rows_aligned (df : frame) (rows : list Hemo8R.row) :
  Hemo8R.load_frame df = Ok rows ->
  (exists ps,
      Frame.lookup "Período de saída" df = Some ps
      /\ map (fun r => Hemo8R.Periodo_de_saida (Hemo8R.base r)) rows
         = filter Hemo8R.parses ps)
  /\ forall r, In r rows ->
       exists i,
         Hemo8R.Periodo_de_saida (Hemo8R.base r)
         = Frame.cell_at df "Período de saída" i
         /\ Hemo8R.Servico_de_Saude (Hemo8R.base r)
            = Frame.cell_at df "Serviço de Saúde" i
         /\ Hemo8R.clean_ui (Frame.cell_at df "250 UI" i)
            = Ok (Hemo8R.UI_250 (Hemo8R.base r))
         /\ Hemo8R.clean_ui (Frame.cell_at df "500 UI" i)
            = Ok (Hemo8R.UI_500 (Hemo8R.base r))
         /\ Hemo8R.clean_ui (Frame.cell_at df "1000 UI" i)
            = Ok (Hemo8R.UI_1000 (Hemo8R.base r))
         /\ Hemo8R.clean_ui (Frame.cell_at df "1500 UI" i)
            = Ok (Hemo8R.UI_1500 (Hemo8R.base r))
         /\ Hemo8R.clean_ui (Frame.cell_at df "Total Geral" i)
            = Ok (Hemo8R.Total_Geral (Hemo8R.base r))
         /\ Hemo8R.parse_periodo (Frame.cell_at df "Período de saída" i)
            = Some (Hemo8R.periodo r).
Proof.
  intros H. unfold Hemo8R.load_frame, Frame.get_col in H.
  unfold Frame.cell_at.
  destruct (Frame.lookup "Período de saída" df) as [ps|]; [|discriminate H].
  destruct (Frame.lookup "Serviço de Saúde" df) as [ss|]; [|discriminate H].
  destruct (Frame.lookup "250 UI" df) as [c1|]; [|discriminate H].
  destruct (Frame.lookup "500 UI" df) as [c2|]; [|discriminate H].
  destruct (Frame.lookup "1000 UI" df) as [c3|]; [|discriminate H].
  destruct (Frame.lookup "1500 UI" df) as [c4|]; [|discriminate H].
  destruct (Frame.lookup "Total Geral" df) as [c5|]; [|discriminate H].
  cbn [bind] in H.
  destruct (mapM Hemo8R.clean_ui c1) as [u1|] eqn:M1; [|discriminate H].
  destruct (mapM Hemo8R.clean_ui c2) as [u2|] eqn:M2; [|discriminate H].
  destruct (mapM Hemo8R.clean_ui c3) as [u3|] eqn:M3; [|discriminate H].
  destruct (mapM Hemo8R.clean_ui c4) as [u4|] eqn:M4; [|discriminate H].
  destruct (mapM Hemo8R.clean_ui c5) as [u5|] eqn:M5; [|discriminate H].
  cbn [bind] in H. injection H as <-. split.
  - exists ps. split; [reflexivity|].
    rewrite dropna_periodo_texts, map_map. cbn [Hemo8R.Periodo_de_saida].
    now rewrite map_nth_seq.
  - intros r Hr. apply dropna_periodo_In in Hr as [p [Hp Hk]].
    apply in_map_iff in Hp as [b [<- Hb]].
    apply in_map_iff in Hb as [i [<- _]].
    unfold Hemo8R.keep in Hk. cbn [fst snd Hemo8R.Periodo_de_saida] in Hk.
    destruct (Hemo8R.parse_periodo (nth i ps NA)) as [d|] eqn:Ed;
      [|discriminate Hk].
    injection Hk as <-. exists i. cbn.
    rewrite (clean_ui_nth c1 u1 i M1), (clean_ui_nth c2 u2 i M2),
      (clean_ui_nth c3 u3 i M3), (clean_ui_nth c4 u4 i M4),
      (clean_ui_nth c5 u5 i M5).
    repeat split; try reflexivity. exact Ed.
Qed.

Lemma load_data_rows_aligned_witness :
  (exists ps,
      Frame.lookup "Período de saída" Samples.services = Some ps
      /\ map (fun r => Hemo8R.Periodo_de_saida (Hemo8R.base r))
             [ Hemo8R.mk_row
                 (Hemo8R.mk_base (Txt "janeiro/19") (Txt "HEMOPE")
                                 3100 10 0 5 3115)
                 (Hemo8R.mk_date 2019 1 1);
               Hemo8R.mk_row
                 (Hemo8R.mk_base (Txt "dezembro/2023") (Txt "HEMOPE")
                                 0 0 7 0 7)
                 (Hemo8R.mk_date 2020 12 1) ]
         = filter Hemo8R.parses ps)
  /\ forall r,
       In r [ Hemo8R.mk_row
                (Hemo8R.mk_base (Txt "janeiro/19") (Txt "HEMOPE")
                                3100 10 0 5 3115)
                (Hemo8R.mk_date 2019 1 1);
              Hemo8R.mk_row
                (Hemo8R.mk_base (Txt "dezembro/2023") (Txt "HEMOPE")
                                0 0 7 0 7)
                (Hemo8R.mk_date 2020 12 1) ] ->
       exists i,
         Hemo8R.Periodo_de_saida (Hemo8R.base r)
         = Frame.cell_at Samples.services "Período de saída" i
         /\ Hemo8R.Servico_de_Saude (Hemo8R.base r)
            = Frame.cell_at Samples.services "Serviço de Saúde" i
         /\ Hemo8R.clean_ui (Frame.cell_at Samples.services "250 UI" i)
            = Ok (Hemo8R.UI_250 (Hemo8R.base r))
         /\ Hemo8R.clean_ui (Frame.cell_at Samples.services "500 UI" i)
            = Ok (Hemo8R.UI_500 (Hemo8R.base r))
         /\ Hemo8R.clean_ui (Frame.cell_at Samples.services "1000 UI" i)
            = Ok (Hemo8R.UI_1000 (Hemo8R.base r))
         /\ Hemo8R.clean_ui (Frame.cell_at Samples.services "1500 UI" i)
            = Ok (Hemo8R.UI_1500 (Hemo8R.base r))
         /\ Hemo8R.clean_ui (Frame.cell_at Samples.services "Total Geral" i)
            = Ok (Hemo8R.Total_Geral (Hemo8R.base r))
         /\ Hemo8R.parse_periodo
              (Frame.cell_at Samples.services "Período de saída" i)
            = Some (Hemo8R.periodo r).
Proof.
  apply (load_data_rows_aligned Samples.services).
  vm_compute. reflexivity.
Defined.



(** ** The texts the period parser accepts *)





Lemma replace_cedilla_nil (g : string) :
  PyStr.replace "ç" "c" g = "" -> g = "".
Proof.
  destruct g as [|a g]; [reflexivity|]. unfold PyStr.replace.
  cbn [PyStr.replace_from].
  destruct (PyStr.starts_with "ç" (String a g)); intros H; discriminate H.
Qed.

Lemma replace_cedilla_cons (g : string) (x : ascii) (k : string) :
  PyStr.replace "ç" "c" g = String x k ->
  (exists g', g = String x g' /\ PyStr.starts_with "ç" g = false
              /\ PyStr.replace "ç" "c" g' = k)
  \/ (x = "c"%char
      /\ exists g', g = "ç" ++ g' /\ PyStr.replace "ç" "c" g' = k).
Proof.
  destruct g as [|a g]; [intros H; discriminate H|]. unfold PyStr.replace.
  cbn [PyStr.replace_from].
  destruct (PyStr.starts_with "ç" (String a g)) eqn:E.
  - change "ç" with (String (PyStr.b 195) (String (PyStr.b 167) "")) in E.
    cbn [PyStr.starts_with] in E. apply andb_prop in E as [Ea E].
    apply Ascii.eqb_eq in Ea. subst a.
    destruct g as [|a' g']; [discriminate E|].
    apply andb_prop in E as [Ea' _]. apply Ascii.eqb_eq in Ea'. subst a'.
    cbn. intros H. injection H as <- <-. right. split; [reflexivity|].
    now exists g'.
  - intros H. injection H as <- <-. left. now exists g.
Qed.

Ltac invert_month H :=
  match type of H with
  | PyStr.replace _ _ _ = EmptyString =>
      apply replace_cedilla_nil in H; subst
  | PyStr.replace _ _ _ = String _ _ =>
      let g := fresh "g" in
      let Hs := fresh "Hs" in
      let Hx := fresh "Hx" in
      apply replace_cedilla_cons in H
        as [[g [-> [Hs H]]] | [Hx [g [-> H]]]];
      [invert_month H | try discriminate Hx; invert_month H]
  end.

(** The key the table of months is asked for has no cedilla left. *)
Lemma replace_cedilla_never_marco (g : string) :
  PyStr.replace "ç" "c" g <> "março".
Proof.
  intros H. invert_month H.
  match goal with
  | Hs : PyStr.starts_with _ _ = false |- _ =>
      vm_compute in Hs; discriminate Hs
  end.
Qed.



Lemma get_without_marco (k : string) :
  k <> "março" ->
  Hemo8R.get k (filter (fun kv => negb (String.eqb (fst kv) "março"))
                       Hemo8R.meses)
  = Hemo8R.get k Hemo8R.meses.
Proof.
  intros Hk.
  replace (filter _ Hemo8R.meses)
    with [ ("janeiro", 1); ("fevereiro", 2); ("marco", 3);
           ("abril", 4); ("maio", 5); ("junho", 6); ("julho", 7);
           ("agosto", 8); ("setembro", 9); ("outubro", 10);
           ("novembro", 11); ("dezembro", 12) ] by reflexivity.
  unfold Hemo8R.meses. cbn [Hemo8R.get].
  destruct (String.eqb "março" k) eqn:E; [|reflexivity].
  apply String.eqb_eq in E. now contradiction Hk.
Qed.

(** X9.  The entry [março] of the table of months is never used: the
    first group of the pattern has its cedillas replaced before the table
    is asked, so the table without that entry gives the same date, or the
    same [NaT], for every cell; [março/19] is found under [marco]. *)
Theorem marco_entry_unused (c : cell) :
  Hemo8R.parse_periodo_with
    (filter (fun kv => negb (String.eqb (fst kv) "março")) Hemo8R.meses) c
  = Hemo8R.parse_periodo c
  /\ Hemo8R.parse_periodo_with Hemo8R.meses c = Hemo8R.parse_periodo c.
Proof.
  split; [|reflexivity].
  unfold Hemo8R.parse_periodo_with, Hemo8R.parse_periodo.
  destruct (Hemo8R.re_match _) as [[g1 g2]|]; [|reflexivity].
  rewrite (get_without_marco _ (replace_cedilla_never_marco g1)).
  reflexivity.
Qed.

(** ** The totals by service and the ranking *)

Lemma add_to_keys (k : string) (v : Z) (groups : list Hemo8R.total)
    (k' : string) :
  In k' (map fst (Hemo8R.add_to k v groups))
  <-> k' = k \/ In k' (map fst groups).
Proof.
  induction groups as [|[k0 v0] g IH]; cbn [Hemo8R.add_to map fst In].
  - split; [intros [<-|[]]; now left | intros [->|[]]; now left].
  - destruct (String.eqb_spec k0 k) as [->|Hne]; cbn [map fst In].
    + split; [intros [<-|H]; auto | intros [->|[<-|H]]; auto].
    + destruct (PyStr.ltb k k0); cbn [map fst In]; [|rewrite IH];
        split; intuition auto.
Qed.

Lemma add_to_sorted (k : string) (v : Z) (groups : list Hemo8R.total) :
  StronglySorted (fun x y => PyStr.ltb x y = true) (map fst groups) ->
  StronglySorted (fun x y => PyStr.ltb x y = true)
                 (map fst (Hemo8R.add_to k v groups)).
Proof.
  induction groups as [|[k0 v0] g IH]; cbn [Hemo8R.add_to map fst];
    intros Hs.
  - repeat constructor.
  - inversion Hs as [|? ? Hs' H0]; subst.
    destruct (String.eqb_spec k0 k) as [->|Hne]; cbn [map fst];
      [now constructor|].
    destruct (PyStr.ltb k k0) eqn:E; cbn [map fst].
    + constructor; [exact Hs|]. constructor; [exact E|].
      rewrite Forall_forall in *. intros y Hy.
      apply (str_ltb_trans k k0 y E). now apply H0.
    + constructor; [now apply IH|].
      rewrite Forall_forall in *. intros y Hy.
      apply add_to_keys in Hy as [->|Hy]; [|now apply H0].
      apply str_ltb_total; [exact (not_eq_sym Hne) | exact E].
Qed.

Lemma add_to_group_sum (k : string) (v : Z) (groups : list Hemo8R.total)
    (k' : string) :
  group_sum k' (Hemo8R.add_to k v groups)
  = group_sum k' groups + (if String.eqb k k' then v else 0).
Proof.
  unfold group_sum.
  induction groups as [|[k0 v0] g IH]; cbn [Hemo8R.add_to].
  - cbn [filter fst map snd fold_right].
    destruct (String.eqb k k'); cbn [map snd fold_right]; lia.
  - destruct (String.eqb_spec k0 k) as [->|Hne].
    + cbn [filter fst].
      destruct (String.eqb k k'); cbn [map snd fold_right]; lia.
    + destruct (PyStr.ltb k k0).
      * cbn [filter fst].
        destruct (String.eqb k k'), (String.eqb k0 k');
          cbn [map snd fold_right]; lia.
      * cbn [filter fst].
        destruct (String.eqb k0 k'); cbn [map snd fold_right];
          rewrite IH; lia.
Qed.

Lemma add_to_totals (k : string) (v : Z) (groups : list Hemo8R.total) :
  fold_right Z.add 0 (map snd (Hemo8R.add_to k v groups))
  = fold_right Z.add 0 (map snd groups) + v.
Proof.
  induction groups as [|[k0 v0] g IH]; cbn [Hemo8R.add_to map snd fold_right];
    [lia|].
  destruct (String.eqb k0 k); cbn [map snd fold_right]; [lia|].
  destruct (PyStr.ltb k k0); cbn [map snd fold_right]; [lia|].
  rewrite IH. lia.
Qed.

Lemma sorted_keys_NoDup (l : list string) :
  StronglySorted (fun x y => PyStr.ltb x y = true) l -> NoDup l.
Proof.
  induction 1 as [|x l Hs IH Hx]; constructor; [|exact IH].
  intros Hin. rewrite Forall_forall in Hx. specialize (Hx x Hin).
  rewrite str_ltb_irrefl in Hx. discriminate Hx.
Qed.

Lemma group_sum_absent (k : string) (groups : list Hemo8R.total) :
  ~ In k (map fst groups) -> group_sum k groups = 0.
Proof.
  unfold group_sum. induction groups as [|[k0 v0] g IH]; cbn [map fst In];
    intros H; [reflexivity|].
  cbn [filter fst]. destruct (String.eqb_spec k0 k) as [->|Hne].
  - exfalso. apply H. now left.
  - apply IH. intros Hin. apply H. now right.
Qed.

Lemma group_sum_In (k : string) (v : Z) (groups : list Hemo8R.total) :
  NoDup (map fst groups) -> In (k, v) groups -> group_sum k groups = v.
Proof.
  induction groups as [|[k0 v0] g IH]; cbn [map fst]; intros Hnd Hin;
    [contradiction|].
  inversion Hnd as [|? ? Hk Hnd']; subst.
  assert (Hu : group_sum k ((k0, v0) :: g)
               = (if String.eqb k0 k then v0 else 0) + group_sum k g).
  { unfold group_sum. cbn [filter fst].
    destruct (String.eqb k0 k); cbn [map snd fold_right]; lia. }
  refine (eq_trans Hu _). clear Hu. destruct Hin as [E|Hin].
  - injection E as -> ->. rewrite String.eqb_refl.
    rewrite (group_sum_absent k g Hk). lia.
  - destruct (String.eqb_spec k0 k) as [->|Hne].
    + exfalso. apply Hk. apply in_map_iff. now exists (k, v).
    + rewrite (IH Hnd' Hin). lia.
Qed.

Lemma NoDup_map_Txt (l : list string) : NoDup l -> NoDup (map Txt l).
Proof.
  induction 1 as [|x l Hx Hl IH]; cbn; constructor; [|exact IH].
  intros Hin. apply in_map_iff in Hin as [y [E Hy]].
  injection E as ->. contradiction.
Qed.

Section GroupBy.

Let service (r : Hemo8R.row) : cell :=
  Hemo8R.Servico_de_Saude (Hemo8R.base r).

Let step (groups : list Hemo8R.total) (r : Hemo8R.row) : list Hemo8R.total :=
  match Hemo8R.Servico_de_Saude (Hemo8R.base r) with
  | Txt k => Hemo8R.add_to k (Hemo8R.Total_Geral (Hemo8R.base r)) groups
  | NA => groups
  end.

Lemma groupby_from_sorted (df : list Hemo8R.row) (acc : list Hemo8R.total) :
  StronglySorted (fun x y => PyStr.ltb x y = true) (map fst acc) ->
  StronglySorted (fun x y => PyStr.ltb x y = true)
                 (map fst (fold_left step df acc)).
Proof.
  revert acc. induction df as [|r df IH]; intros acc Hs; cbn [fold_left];
    [exact Hs|].
  apply IH. unfold step. destruct (Hemo8R.Servico_de_Saude _); [exact Hs|].
  now apply add_to_sorted.
Qed.

Lemma groupby_from_keys (df : list Hemo8R.row) (acc : list Hemo8R.total)
    (k : string) :
  In k (map fst (fold_left step df acc))
  <-> In k (map fst acc) \/ In (Txt k) (map service df).
Proof.
  revert acc. induction df as [|r df IH]; intros acc;
    cbn [fold_left map In]; [tauto|].
  rewrite IH. unfold step, service.
  destruct (Hemo8R.Servico_de_Saude (Hemo8R.base r)) as [|k0].
  - split; [intros [H|H]; auto | intros [H|[H|H]]; auto; discriminate H].
  - rewrite add_to_keys. split.
    + intros [[->|H]|H]; auto.
    + intros [H|[H|H]]; auto. injection H as ->. auto.
Qed.

Lemma groupby_from_sum (df : list Hemo8R.row) (acc : list Hemo8R.total)
    (k : string) :
  group_sum k (fold_left step df acc)
  = group_sum k acc + service_total k df.
Proof.
  revert acc. induction df as [|r df IH]; intros acc; cbn [fold_left].
  - unfold service_total. cbn. lia.
  - rewrite IH. unfold step, service_total. cbn [filter].
    destruct (Hemo8R.Servico_de_Saude (Hemo8R.base r)) as [|k0];
      cbn [Frame.cell_eqb]; [lia|].
    rewrite add_to_group_sum.
    destruct (String.eqb k0 k); cbn [map fold_right]; lia.
Qed.

Lemma groupby_from_totals (df : list Hemo8R.row) (acc : list Hemo8R.total) :
  fold_right Z.add 0 (map snd (fold_left step df acc))
  + fold_right Z.add 0
      (map (fun r => Hemo8R.Total_Geral (Hemo8R.base r))
           (filter (fun r => Acquisitions.is_na (service r)) df))
  = fold_right Z.add 0 (map snd acc)
    + fold_right Z.add 0
        (map (fun r => Hemo8R.Total_Geral (Hemo8R.base r)) df).
Proof.
  revert acc. induction df as [|r df IH]; intros acc;
    cbn [fold_left filter map fold_right]; [lia|].
  specialize (IH (step acc r)). unfold step, service in *.
  destruct (Hemo8R.Servico_de_Saude (Hemo8R.base r)) as [|k0];
    cbn [Acquisitions.is_na map fold_right].
  - lia.
  - rewrite add_to_totals in IH. lia.
Qed.

End GroupBy.

Lemma groupby_sum_sorted (df : list Hemo8R.row) :
  StronglySorted (fun x y => PyStr.ltb x y = true)
                 (map fst (Hemo8R.groupby_sum df)).
Proof. apply groupby_from_sorted. constructor. Qed.

Lemma groupby_sum_keys (df : list Hemo8R.row) (k : string) :
  In k (map fst (Hemo8R.groupby_sum df))
  <-> In (Txt k) (map (fun r => Hemo8R.Servico_de_Saude (Hemo8R.base r)) df).
Proof.
  unfold Hemo8R.groupby_sum. rewrite groupby_from_keys. cbn [map In]. tauto.
Qed.

Lemma groupby_sum_total (df : list Hemo8R.row) (k : string) (v : Z) :
  In (k, v) (Hemo8R.groupby_sum df) -> v = service_total k df.
Proof.
  intros Hin.
  rewrite <- (group_sum_In k v _
                (sorted_keys_NoDup _ (groupby_sum_sorted df)) Hin).
  unfold Hemo8R.groupby_sum. rewrite groupby_from_sum.
  unfold group_sum. cbn. lia.
Qed.

Lemma groupby_sum_length (df : list Hemo8R.row) :
  List.length (Hemo8R.groupby_sum df) = Hemo8R.servicos df.
Proof.
  unfold Hemo8R.servicos, Acquisitions.nunique_cells.
  transitivity (List.length (map Txt (map fst (Hemo8R.groupby_sum df)))).
  { now rewrite !length_map. }
  apply Permutation_length, NoDup_Permutation.
  - apply NoDup_map_Txt, sorted_keys_NoDup, groupby_sum_sorted.
  - apply (unique_from_NoDup Frame.cell_eqb cell_eqb_eq []).
  - intros c. rewrite (unique_In Frame.cell_eqb cell_eqb_eq), filter_In.
    rewrite in_map_iff. split.
    + intros [k [<- Hin]]. apply groupby_sum_keys in Hin. now split.
    + intros [Hin Hna]. destruct c as [|k]; [discriminate Hna|].
      exists k. split; [reflexivity|]. now apply groupby_sum_keys.
Qed.

(** X10.  The totals by service behind the ranking: the services that
    some row names, each once and in the ascending order of the names, each
    with the sum of the [Total Geral] of its rows; a row without a service
    enters no total, and the groups are as many as the metric of the
    distinct services counts. *)
Theorem groupby_sum_services (df : list Hemo8R.row) :
  StronglySorted (fun x y => PyStr.ltb x y = true)
                 (map fst (Hemo8R.groupby_sum df))
  /\ (forall k,
        In k (map fst (Hemo8R.groupby_sum df))
        <-> In (Txt k)
               (map (fun r => Hemo8R.Servico_de_Saude (Hemo8R.base r)) df))
  /\ (forall k v,
        In (k, v) (Hemo8R.groupby_sum df) -> v = service_total k df)
  /\ List.length (Hemo8R.groupby_sum df) = Hemo8R.servicos df.
Proof.
  split; [apply groupby_sum_sorted|].
  split; [apply groupby_sum_keys|].
  split; [apply groupby_sum_total | apply groupby_sum_length].
Qed.

(** X11.  Every bar of the ranking is a service that some row names,
    with the sum of the [Total Geral] of the rows of that service; no
    service has two bars, and the bars are as many as the slider asks for,
    or as many as there are distinct services when these are fewer. *)
Theorem rank_services (quicksort : sorter Hemo8R.total_ltb)
    (df : list Hemo8R.row) (top_n : nat) :
  List.length (Hemo8R.rank quicksort df top_n)
  = Nat.min top_n (Hemo8R.servicos df)
  /\ NoDup (map fst (Hemo8R.rank quicksort df top_n))
  /\ forall k v,
       In (k, v) (Hemo8R.rank quicksort df top_n) ->
       In (Txt k) (map (fun r => Hemo8R.Servico_de_Saude (Hemo8R.base r)) df)
       /\ v = service_total k df.
Proof.
  unfold Hemo8R.rank, Hemo8R.rank_totals.
  pose proof (sort_values_desc_perm quicksort (Hemo8R.groupby_sum df)) as Hp.
  split; [|split].
  - rewrite length_firstn, <- (Permutation_length Hp), groupby_sum_length.
    reflexivity.
  - rewrite <- firstn_map.
    apply (NoDup_app_remove_r _ (skipn top_n
                                   (map fst (Hemo8R.sort_values_desc
                                               quicksort
                                               (Hemo8R.groupby_sum df))))).
    rewrite firstn_skipn.
    apply (Permutation_NoDup (Permutation_map fst Hp)).
    apply sorted_keys_NoDup, groupby_sum_sorted.
  - intros k v Hin.
    assert (Hg : In (k, v) (Hemo8R.groupby_sum df)).
    { apply (Permutation_in _ (Permutation_sym Hp)).
      rewrite <- (firstn_skipn top_n (Hemo8R.sort_values_desc _ _)).
      apply in_or_app. now left. }
    split; [|now apply groupby_sum_total].
    apply groupby_sum_keys, in_map_iff. now exists (k, v).
Qed.

(** X12.  The metric of the total volume and the ranking account for the
    same units: the volume is the sum of the totals of all the services
    plus the [Total Geral] of the rows that name no service, which no bar
    of the ranking can show. *)
Theorem volume_accounting (df : list Hemo8R.row) (k : Hemo8R.kpis) :
  Hemo8R.services_kpis df = Ok k ->
  Hemo8R.Volume_total k
  = fold_right Z.add 0 (map snd (Hemo8R.groupby_sum df))
    + fold_right Z.add 0
        (map (fun r => Hemo8R.Total_Geral (Hemo8R.base r))
             (filter (fun r => Acquisitions.is_na
                                 (Hemo8R.Servico_de_Saude (Hemo8R.base r)))
                     df)).
Proof.
  unfold Hemo8R.services_kpis. intros H.
  destruct (Hemo8R.strftime (Hemo8R.min_periodo df)) as [de|];
    [|discriminate H].
  destruct (Hemo8R.strftime (Hemo8R.max_periodo df)) as [ate|];
    [|discriminate H].
  cbn [bind] in H. injection H as <-. cbn [Hemo8R.Volume_total].
  pose proof (groupby_from_totals df []) as Ht. cbn [map fold_right] in Ht.
  unfold Hemo8R.groupby_sum. lia.
Qed.

Lemma volume_accounting_witness :
  Hemo8R.Volume_total
    (Hemo8R.mk_kpis (1, 2019) (12, 2020) 3130 3)
  = fold_right Z.add 0
      (map snd
           (Hemo8R.groupby_sum
              [ Hemo8R.mk_row
                  (Hemo8R.mk_base (Txt "janeiro/19") (Txt "HEMOPE")
                                  3100 10 0 5 3115)
                  (Hemo8R.mk_date 2019 1 1);
                Hemo8R.mk_row
                  (Hemo8R.mk_base (Txt "fevereiro/19") NA 0 0 8 0 8)
                  (Hemo8R.mk_date 2019 2 1);
                Hemo8R.mk_row
                  (Hemo8R.mk_base (Txt "dezembro/2023") (Txt "HEMOPE")
                                  0 0 7 0 7)
                  (Hemo8R.mk_date 2020 12 1) ]))
    + fold_right Z.add 0
        (map (fun r => Hemo8R.Total_Geral (Hemo8R.base r))
             (filter (fun r => Acquisitions.is_na
                                 (Hemo8R.Servico_de_Saude (Hemo8R.base r)))
                     [ Hemo8R.mk_row
                         (Hemo8R.mk_base (Txt "janeiro/19") (Txt "HEMOPE")
                                         3100 10 0 5 3115)
                         (Hemo8R.mk_date 2019 1 1);
                       Hemo8R.mk_row
                         (Hemo8R.mk_base (Txt "fevereiro/19") NA 0 0 8 0 8)
                         (Hemo8R.mk_date 2019 2 1);
                       Hemo8R.mk_row
                         (Hemo8R.mk_base (Txt "dezembro/2023") (Txt "HEMOPE")
                                         0 0 7 0 7)
                         (Hemo8R.mk_date 2020 12 1) ])).
Proof.
  apply (volume_accounting
           [ Hemo8R.mk_row
               (Hemo8R.mk_base (Txt "janeiro/19") (Txt "HEMOPE")
                               3100 10 0 5 3115)
               (Hemo8R.mk_date 2019 1 1);
             Hemo8R.mk_row
               (Hemo8R.mk_base (Txt "fevereiro/19") NA 0 0 8 0 8)
               (Hemo8R.mk_date 2019 2 1);
             Hemo8R.mk_row
               (Hemo8R.mk_base (Txt "dezembro/2023") (Txt "HEMOPE")
                               0 0 7 0 7)
               (Hemo8R.mk_date 2020 12 1) ]).
  vm_compute. reflexivity.
Defined.

(** ** The metrics of the services section *)

Lemma date_ltb_spec (d e : Hemo8R.date) :
  Hemo8R.date_ltb d e = true
  <-> Hemo8R.year d < Hemo8R.year e
      \/ (Hemo8R.year d = Hemo8R.year e
          /\ (Hemo8R.month d < Hemo8R.month e
              \/ (Hemo8R.month d = Hemo8R.month e
                  /\ Hemo8R.day d < Hemo8R.day e))).
Proof.
  unfold Hemo8R.date_ltb.
  rewrite !orb_true_iff, !andb_true_iff, !orb_true_iff, !andb_true_iff.
  rewrite !Z.ltb_lt, !Z.eqb_eq. tauto.
Qed.

Lemma date_ltb_false (d e : Hemo8R.date) :
  Hemo8R.date_ltb d e = false
  <-> ~ (Hemo8R.year d < Hemo8R.year e
         \/ (Hemo8R.year d = Hemo8R.year e
             /\ (Hemo8R.month d < Hemo8R.month e
                 \/ (Hemo8R.month d = Hemo8R.month e
                     /\ Hemo8R.day d < Hemo8R.day e)))).
Proof. rewrite <- date_ltb_spec. now destruct (Hemo8R.date_ltb d e). Qed.

Lemma min_periodo_spec (l : list Hemo8R.row) (x : Hemo8R.date) :
  let m := fold_left
             (fun m r => if Hemo8R.date_ltb (Hemo8R.periodo r) m
                         then Hemo8R.periodo r else m) l x in
  (m = x \/ exists r, In r l /\ m = Hemo8R.periodo r)
  /\ Hemo8R.date_ltb x m = false
  /\ forall r, In r l -> Hemo8R.date_ltb (Hemo8R.periodo r) m = false.
Proof.
  revert x. induction l as [|a l IH]; intros x; cbn [fold_left].
  - split; [now left|]. split; [|intros r []].
    apply date_ltb_false. lia.
  - set (y := if Hemo8R.date_ltb (Hemo8R.periodo a) x
              then Hemo8R.periodo a else x).
    destruct (IH y) as [Hin [Hy Hall]].
    assert (Hyx : Hemo8R.date_ltb x y = false
                  /\ Hemo8R.date_ltb (Hemo8R.periodo a) y = false
                  /\ (y = x \/ y = Hemo8R.periodo a)).
    { subst y. destruct (Hemo8R.date_ltb (Hemo8R.periodo a) x) eqn:E.
      - apply date_ltb_spec in E. rewrite !date_ltb_false.
        repeat split; [lia | lia | now right].
      - rewrite !date_ltb_false. apply date_ltb_false in E.
        repeat split; [lia | exact E | now left]. }
    destruct Hyx as [Hxy [Hay Hcase]]. split; [|split].
    + destruct Hin as [->|[r [Hr ->]]].
      * destruct Hcase as [->| ->]; [now left|].
        right. exists a. split; [now left | reflexivity].
      * right. exists r. split; [now right | reflexivity].
    + apply date_ltb_false in Hy, Hxy. apply date_ltb_false. lia.
    + intros r [<-|Hr]; [|now apply Hall].
      apply date_ltb_false in Hy, Hay. apply date_ltb_false. lia.
Qed.

Lemma max_periodo_spec (l : list Hemo8R.row) (x : Hemo8R.date) :
  let m := fold_left
             (fun m r => if Hemo8R.date_ltb m (Hemo8R.periodo r)
                         then Hemo8R.periodo r else m) l x in
  (m = x \/ exists r, In r l /\ m = Hemo8R.periodo r)
  /\ Hemo8R.date_ltb m x = false
  /\ forall r, In r l -> Hemo8R.date_ltb m (Hemo8R.periodo r) = false.
Proof.
  revert x. induction l as [|a l IH]; intros x; cbn [fold_left].
  - split; [now left|]. split; [|intros r []].
    apply date_ltb_false. lia.
  - set (y := if Hemo8R.date_ltb x (Hemo8R.periodo a)
              then Hemo8R.periodo a else x).
    destruct (IH y) as [Hin [Hy Hall]].
    assert (Hyx : Hemo8R.date_ltb y x = false
                  /\ Hemo8R.date_ltb y (Hemo8R.periodo a) = false
                  /\ (y = x \/ y = Hemo8R.periodo a)).
    { subst y. destruct (Hemo8R.date_ltb x (Hemo8R.periodo a)) eqn:E.
      - apply date_ltb_spec in E. rewrite !date_ltb_false.
        repeat split; [lia | lia | now right].
      - rewrite !date_ltb_false. apply date_ltb_false in E.
        repeat split; [lia | exact E | now left]. }
    destruct Hyx as [Hxy [Hay Hcase]]. split; [|split].
    + destruct Hin as [->|[r [Hr ->]]].
      * destruct Hcase as [->| ->]; [now left|].
        right. exists a. split; [now left | reflexivity].
      * right. exists r. split; [now right | reflexivity].
    + apply date_ltb_false in Hy, Hxy. apply date_ltb_false. lia.
    + intros r [<-|Hr]; [|now apply Hall].
      apply date_ltb_false in Hy, Hay. apply date_ltb_false. lia.
Qed.

(** X13.  On a table with a row the metrics of the services section are
    there: [De] shows the month and year of a period of the table that no
    period precedes, [Até] those of one that no period follows, and the
    records are the rows. *)
Theorem services_kpis_periods (df : list Hemo8R.row) :
  df <> [] ->
  exists k r1 r2,
    Hemo8R.services_kpis df = Ok k
    /\ In r1 df /\ In r2 df
    /\ Hemo8R.De k
       = (Hemo8R.month (Hemo8R.periodo r1), Hemo8R.year (Hemo8R.periodo r1))
    /\ Hemo8R.Ate k
       = (Hemo8R.month (Hemo8R.periodo r2), Hemo8R.year (Hemo8R.periodo r2))
    /\ Hemo8R.Registros k = List.length df
    /\ forall r, In r df ->
         Hemo8R.date_ltb (Hemo8R.periodo r) (Hemo8R.periodo r1) = false
         /\ Hemo8R.date_ltb (Hemo8R.periodo r2) (Hemo8R.periodo r) = false.
Proof.
  destruct df as [|a l]; [intros H; now contradiction H|]. intros _.
  destruct (min_periodo_spec l (Hemo8R.periodo a)) as [Hmin [Hmx Hmall]].
  destruct (max_periodo_spec l (Hemo8R.periodo a)) as [Hmax [HMx HMall]].
  assert (H1 : exists r1, In r1 (a :: l)
                 /\ fold_left
                      (fun m r => if Hemo8R.date_ltb (Hemo8R.periodo r) m
                                  then Hemo8R.periodo r else m)
                      l (Hemo8R.periodo a) = Hemo8R.periodo r1).
  { destruct Hmin as [E|[r [Hr E]]];
      [exists a; split; [now left | exact E]
      | exists r; split; [now right | exact E]]. }
  assert (H2 : exists r2, In r2 (a :: l)
                 /\ fold_left
                      (fun m r => if Hemo8R.date_ltb m (Hemo8R.periodo r)
                                  then Hemo8R.periodo r else m)
                      l (Hemo8R.periodo a) = Hemo8R.periodo r2).
  { destruct Hmax as [E|[r [Hr E]]];
      [exists a; split; [now left | exact E]
      | exists r; split; [now right | exact E]]. }
  destruct H1 as [r1 [Hr1 E1]]. destruct H2 as [r2 [Hr2 E2]].
  rewrite E1 in Hmx, Hmall. rewrite E2 in HMx, HMall.
  eexists. exists r1, r2. unfold Hemo8R.services_kpis.
  cbn [Hemo8R.min_periodo Hemo8R.max_periodo]. rewrite E1, E2.
  cbn [Hemo8R.strftime bind Hemo8R.De Hemo8R.Ate Hemo8R.Registros].
  split; [reflexivity|]. repeat split; auto.
  - destruct H as [<-|H]; [exact Hmx | now apply Hmall].
  - destruct H as [<-|H]; [exact HMx | now apply HMall].
Qed.

Lemma services_kpis_periods_witness :
  exists k r1 r2,
    Hemo8R.services_kpis
      [ Hemo8R.mk_row
          (Hemo8R.mk_base (Txt "dezembro/2023") (Txt "HEMOPE") 0 0 7 0 7)
          (Hemo8R.mk_date 2020 12 1);
        Hemo8R.mk_row
          (Hemo8R.mk_base (Txt "janeiro/19") (Txt "HEMOPE") 3100 10 0 5 3115)
          (Hemo8R.mk_date 2019 1 1) ] = Ok k
    /\ In r1 [ Hemo8R.mk_row
                 (Hemo8R.mk_base (Txt "dezembro/2023") (Txt "HEMOPE")
                                 0 0 7 0 7)
                 (Hemo8R.mk_date 2020 12 1);
               Hemo8R.mk_row
                 (Hemo8R.mk_base (Txt "janeiro/19") (Txt "HEMOPE")
                                 3100 10 0 5 3115)
                 (Hemo8R.mk_date 2019 1 1) ]
    /\ In r2 [ Hemo8R.mk_row
                 (Hemo8R.mk_base (Txt "dezembro/2023") (Txt "HEMOPE")
                                 0 0 7 0 7)
                 (Hemo8R.mk_date 2020 12 1);
               Hemo8R.mk_row
                 (Hemo8R.mk_base (Txt "janeiro/19") (Txt "HEMOPE")
                                 3100 10 0 5 3115)
                 (Hemo8R.mk_date 2019 1 1) ]
    /\ Hemo8R.De k
       = (Hemo8R.month (Hemo8R.periodo r1), Hemo8R.year (Hemo8R.periodo r1))
    /\ Hemo8R.Ate k
       = (Hemo8R.month (Hemo8R.periodo r2), Hemo8R.year (Hemo8R.periodo r2))
    /\ Hemo8R.Registros k = 2%nat
    /\ forall r,
         In r [ Hemo8R.mk_row
                  (Hemo8R.mk_base (Txt "dezembro/2023") (Txt "HEMOPE")
                                  0 0 7 0 7)
                  (Hemo8R.mk_date 2020 12 1);
                Hemo8R.mk_row
                  (Hemo8R.mk_base (Txt "janeiro/19") (Txt "HEMOPE")
                                  3100 10 0 5 3115)
                  (Hemo8R.mk_date 2019 1 1) ] ->
         Hemo8R.date_ltb (Hemo8R.periodo r) (Hemo8R.periodo r1) = false
         /\ Hemo8R.date_ltb (Hemo8R.periodo r2) (Hemo8R.periodo r) = false.
Proof.
  apply (services_kpis_periods
           [ Hemo8R.mk_row
               (Hemo8R.mk_base (Txt "dezembro/2023") (Txt "HEMOPE") 0 0 7 0 7)
               (Hemo8R.mk_date 2020 12 1);
             Hemo8R.mk_row
               (Hemo8R.mk_base (Txt "janeiro/19") (Txt "HEMOPE")
                               3100 10 0 5 3115)
               (Hemo8R.mk_date 2019 1 1) ]).
  intros H. discriminate H.
Defined.

(** ** The Ministry of Health section *)

Lemma rename_filter_ano (df : frame) :
  filter (fun c : column => String.eqb (fst c) "Ano") (Hemo8R.rename df)
  = map (fun c : column => ("Ano", snd c)) (ano_cols df).
Proof.
  unfold Hemo8R.rename, ano_cols.
  induction df as [|[n cells] df IH]; [reflexivity|].
  cbn [map filter fst snd].
  destruct (String.eqb_spec n "ano") as [->|H1].
  - cbn [orb map fst snd]. rewrite IH. reflexivity.
  - destruct (String.eqb_spec n "quantidade") as [->|H2].
    + cbn [orb map fst snd]. rewrite IH. reflexivity.
    + cbn [fst orb]. destruct (String.eqb n "Ano") eqn:E; cbn [map fst snd];
        rewrite IH; [|reflexivity].
      apply String.eqb_eq in E. now subst.
Qed.

Lemma rename_filter_quantidade (df : frame) :
  filter (fun c : column => String.eqb (fst c) "Quantidade") (Hemo8R.rename df)
  = map (fun c : column => ("Quantidade", snd c)) (quantidade_cols df).
Proof.
  unfold Hemo8R.rename, quantidade_cols.
  induction df as [|[n cells] df IH]; [reflexivity|].
  cbn [map filter fst snd].
  destruct (String.eqb_spec n "ano") as [->|H1].
  - cbn [orb map fst snd]. rewrite IH. reflexivity.
  - destruct (String.eqb_spec n "quantidade") as [->|H2].
    + cbn [orb map fst snd]. rewrite IH. reflexivity.
    + cbn [fst orb]. destruct (String.eqb n "Quantidade") eqn:E;
        cbn [map fst snd]; rewrite IH; [|reflexivity].
      apply String.eqb_eq in E. now subst.
Qed.

(** X14.  [load_ms_data] fails on the headers alone, never on what the
    cells hold: it raises [KeyError] when no column is called [ano] or
    [Ano], or none [quantidade] or [Quantidade], [TypeError] when two
    columns bear one of these names after the renaming, and it returns on
    every other file. *)
Theorem load_ms_headers (quicksort : sorter Hemo8R.ms_ltb) (df : frame) :
  match ano_cols df, quantidade_cols df with
  | [], _ => Hemo8R.load_ms_frame quicksort df = Raise (KeyError "Ano")
  | [_], [] =>
      Hemo8R.load_ms_frame quicksort df = Raise (KeyError "Quantidade")
  | [_], [_] => exists rows, Hemo8R.load_ms_frame quicksort df = Ok rows
  | _, _ =>
      Hemo8R.load_ms_frame quicksort df
      = Raise (TypeError "arg must be a list, tuple, 1-d array, or Series")
  end.
Proof.
  unfold Hemo8R.load_ms_frame, Hemo8R.numeric_col.
  rewrite rename_filter_ano, rename_filter_quantidade.
  destruct (ano_cols df) as [|a [|a' la]]; cbn [map bind]; [reflexivity| |].
  - destruct (quantidade_cols df) as [|q [|q' lq]]; cbn [map bind];
      [reflexivity | eexists; reflexivity | reflexivity].
  - destruct (quantidade_cols df) as [|q [|q' lq]]; reflexivity.
Qed.




(** ** The page of [2_Emicizumabe.py] *)



(** ** Quantities in the Brazilian format *)






















(** ** The table under the charts of the acquisitions page *)

Lemma stable_sort_id {A : Type} (ltb : A -> A -> bool) (l : list A) :
  StronglySorted (fun x y => ltb y x = false) l -> stable_sort ltb l = l.
Proof.
  induction 1 as [|x l Hs IH Hx]; [reflexivity|].
  cbn [stable_sort]. rewrite IH. destruct l as [|y l']; [reflexivity|].
  cbn [insert]. inversion Hx as [|? ? Hy _]; subst. now rewrite Hy.
Qed.

Lemma filter_sorted {A : Type} (R : A -> A -> Prop) (f : A -> bool)
    (l : list A) :
  StronglySorted R l -> StronglySorted R (filter f l).
Proof.
  induction 1 as [|x l Hs IH Hx]; cbn [filter]; [constructor|].
  destruct (f x); [|exact IH]. constructor; [exact IH|].
  rewrite Forall_forall in *. intros y Hy. apply Hx.
  now apply filter_In in Hy as [Hy _].
Qed.

(** X19.  The table under the charts is sorted once more than it needs:
    the loader returns its rows by year and medicine and the filter by
    years keeps their order, so the last [sort_values] changes nothing and
    the table shows the rows of the chosen years as the loader gave
    them. *)
Theorem detalhes_already_sorted (df_raw : frame) (df : list Acquisitions.row)
    (intervalo : Z * Z) :
  NoDup (Frame.names df_raw) ->
  Acquisitions.load_frame df_raw = Ok df ->
  Acquisitions.detalhes df intervalo = Acquisitions.filtrar df intervalo.
Proof.
  intros Hnd H. destruct (load_frame_Ok df_raw df Hnd H) as [ids [_ ->]].
  unfold Acquisitions.detalhes, Acquisitions.filtrar.
  apply stable_sort_id, filter_sorted.
  apply (stable_sort_sorted Acquisitions.row_ltb row_ltb_asym row_leb_trans).
Qed.

Lemma detalhes_already_sorted_witness :
  Acquisitions.detalhes
    [ Acquisitions.mk_row (Txt "Fator IX") 2019 (Num.of_Z 0);
      Acquisitions.mk_row (Txt "Fator VIII") 2019 (Fin (30864 # 25));
      Acquisitions.mk_row (Txt "Fator IX") 2020 (Num.of_Z 0);
      Acquisitions.mk_row (Txt "Fator VIII") 2020 (Num.of_Z 3100) ]
    (2020, 2020)
  = Acquisitions.filtrar
      [ Acquisitions.mk_row (Txt "Fator IX") 2019 (Num.of_Z 0);
        Acquisitions.mk_row (Txt "Fator VIII") 2019 (Fin (30864 # 25));
        Acquisitions.mk_row (Txt "Fator IX") 2020 (Num.of_Z 0);
        Acquisitions.mk_row (Txt "Fator VIII") 2020 (Num.of_Z 3100) ]
      (2020, 2020).
Proof.
  apply (detalhes_already_sorted Samples.wide).
  - repeat constructor; cbn; intuition discriminate.
  - vm_compute. reflexivity.
Defined.

(** ** The tables behind the charts of the acquisitions page *)





Lemma existsb_filter_false {A : Type} (p f : A -> bool) (l : list A) :
  existsb p l = false -> existsb p (filter f l) = false.
Proof.
  induction l as [|x l IH]; cbn [existsb filter]; [reflexivity|].
  intros H. apply orb_false_iff in H as [Hx Hl].
  destruct (f x); cbn [existsb]; [rewrite Hx|]; now apply IH.
Qed.

Section Partition.

Context {R K : Type} (eqb : K -> K -> bool).
Hypothesis eqb_eq : forall x y, eqb x y = true <-> x = y.
Variable key : R -> option K.

Let has (k : K) (r : R) : bool :=
  match key r with Some k' => eqb k' k | None => false end.

Let keyed (r : R) : bool :=
  match key r with Some _ => true | None => false end.

Lemma flat_map_one (x : R) (k0 : K) (F : K -> list R) (ks : list K) :
  NoDup ks ->
  Permutation
    (flat_map (fun k => if eqb k0 k then x :: F k else F k) ks)
    ((if existsb (eqb k0) ks then [x] else []) ++ flat_map F ks).
Proof.
  induction 1 as [|k ks Hk Hnd IH]; cbn [flat_map existsb]; [reflexivity|].
  destruct (eqb k0 k) eqn:E; cbn [orb].
  - apply eqb_eq in E. subst k.
    assert (Hn : existsb (eqb k0) ks = false).
    { destruct (existsb (eqb k0) ks) eqn:Ex; [|reflexivity].
      apply existsb_exists in Ex as [y [Hy Ey]]. apply eqb_eq in Ey.
      subst y. contradiction. }
    rewrite Hn in IH. cbn [app] in *. constructor.
    now apply Permutation_app_head.
  - rewrite IH. destruct (existsb (eqb k0) ks); cbn [app]; [|reflexivity].
    symmetry. apply Permutation_middle.
Qed.

Lemma partition_perm (ks : list K) (l : list R) :
  NoDup ks ->
  (forall r k, In r l -> key r = Some k -> In k ks) ->
  Permutation (flat_map (fun k => filter (has k) l) ks) (filter keyed l).
Proof.
  intros Hnd. induction l as [|x l IH]; intros Hin.
  - cbn [filter]. now rewrite flat_map_nil.
  - assert (IH' : Permutation (flat_map (fun k => filter (has k) l) ks)
                              (filter keyed l))
      by (apply IH; intros r k Hr; apply Hin; now right).
    destruct (key x) as [k0|] eqn:E.
    + rewrite (flat_map_ext
                 (fun k => filter (has k) (x :: l))
                 (fun k => if eqb k0 k
                           then x :: filter (has k) l else filter (has k) l))
        by (intros k; cbn [filter]; unfold has at 1; now rewrite E).
      rewrite (flat_map_one x k0 (fun k => filter (has k) l) ks Hnd).
      assert (Hk : existsb (eqb k0) ks = true).
      { apply existsb_exists. exists k0. split; [|now apply eqb_eq].
        apply (Hin x k0); [now left | exact E]. }
      rewrite Hk. cbn [app filter]. unfold keyed at 1. rewrite E.
      now constructor.
    + rewrite (flat_map_ext
                 (fun k => filter (has k) (x :: l))
                 (fun k => filter (has k) l))
        by (intros k; cbn [filter]; unfold has at 1; now rewrite E).
      cbn [filter]. unfold keyed at 1. rewrite E. exact IH'.
Qed.

End Partition.

Lemma map_flat_map {A B C : Type} (f : B -> C) (g : A -> list B)
    (l : list A) :
  map f (flat_map g l) = flat_map (fun a => map f (g a)) l.
Proof.
  induction l as [|a l IH]; cbn [flat_map map]; [reflexivity|].
  now rewrite map_app, IH.
Qed.




Lemma ano_ltb_asym (x y : Z * num) :
  Acquisitions.ano_ltb x y = true -> Acquisitions.ano_ltb y x = false.
Proof. unfold Acquisitions.ano_ltb. lia. Qed.

Lemma ano_leb_trans (x y z : Z * num) :
  Acquisitions.ano_ltb y x = false -> Acquisitions.ano_ltb z y = false ->
  Acquisitions.ano_ltb z x = false.
Proof. unfold Acquisitions.ano_ltb. lia. Qed.




Lemma chave_eqb_eq (x y : Z * string) :
  Acquisitions.chave_eqb x y = true <-> x = y.
Proof.
  destruct x as [a s], y as [b t]. unfold Acquisitions.chave_eqb.
  cbn [fst snd]. rewrite andb_true_iff, Z.eqb_eq, String.eqb_eq.
  split; [intros [-> ->]; reflexivity | intros E; injection E; auto].
Qed.

Lemma chave_ltb_false (x y : Z * string) :
  Acquisitions.chave_ltb y x = false
  <-> fst x < fst y
      \/ (fst x = fst y /\ PyStr.ltb (snd y) (snd x) = false).
Proof.
  unfold Acquisitions.chave_ltb. rewrite orb_false_iff, andb_false_iff.
  rewrite Z.ltb_ge, Z.eqb_neq. split.
  - intros [H1 [H2|H2]]; [left; lia|].
    destruct (Z.eq_dec (fst x) (fst y)); [right; auto | left; lia].
  - intros [H|[H1 H2]].
    + split; [lia | left; lia].
    + split; [lia | now right].
Qed.

Lemma chave_ltb_asym (x y : Z * string) :
  Acquisitions.chave_ltb x y = true -> Acquisitions.chave_ltb y x = false.
Proof.
  intros H. apply chave_ltb_false. unfold Acquisitions.chave_ltb in H.
  apply orb_true_iff in H as [H|H].
  - apply Z.ltb_lt in H. now left.
  - apply andb_true_iff in H as [He Hc]. apply Z.eqb_eq in He.
    right. split; [exact He | now apply str_ltb_asym].
Qed.

Lemma chave_leb_trans (x y z : Z * string) :
  Acquisitions.chave_ltb y x = false -> Acquisitions.chave_ltb z y = false ->
  Acquisitions.chave_ltb z x = false.
Proof.
  rewrite !chave_ltb_false. intros [H1|[H1 C1]] [H2|[H2 C2]].
  - left; lia.
  - left; lia.
  - left; lia.
  - right. split; [lia|]. now apply str_leb_trans with (snd y).
Qed.

Lemma chave_ltb_total (x y : Z * string) :
  Acquisitions.chave_ltb x y = false -> Acquisitions.chave_ltb y x = false ->
  x = y.
Proof.
  rewrite !chave_ltb_false. destruct x as [a s], y as [b t]. cbn [fst snd].
  intros [H1|[H1 C1]] [H2|[H2 C2]]; try lia. subst b. f_equal.
  destruct (String.eqb_spec s t) as [E|Hne]; [exact E|].
  rewrite (str_ltb_total s t Hne C1) in C2. discriminate C2.
Qed.

Section UniqueFilter.

Context {A : Type} (eqb : A -> A -> bool).
Hypothesis eqb_eq : forall x y, eqb x y = true <-> x = y.
Variable p : A -> bool.

Lemma existsb_filter_seen (x : A) (seen : list A) :
  p x = true ->
  existsb (eqb x) (filter p seen) = existsb (eqb x) seen.
Proof.
  intros Hx. induction seen as [|y seen IH]; [reflexivity|].
  cbn [filter existsb]. destruct (p y) eqn:Ey; cbn [existsb];
    rewrite IH; [reflexivity|].
  destruct (eqb x y) eqn:E; [|reflexivity].
  apply eqb_eq in E. congruence.
Qed.

Lemma unique_from_filter (seen l : list A) :
  unique_from eqb (filter p seen) (filter p l)
  = filter p (unique_from eqb seen l).
Proof.
  revert seen. induction l as [|x l IH]; intros seen; [reflexivity|].
  cbn [filter unique_from]. destruct (p x) eqn:Ex.
  - cbn [unique_from]. rewrite (existsb_filter_seen x seen Ex).
    destruct (existsb (eqb x) seen); [apply IH|].
    cbn [filter]. rewrite Ex. f_equal.
    rewrite <- IH. cbn [filter]. now rewrite Ex.
  - destruct (existsb (eqb x) seen); [apply IH|].
    cbn [filter]. rewrite Ex. rewrite <- IH. cbn [filter]. now rewrite Ex.
Qed.

End UniqueFilter.

Lemma chave_sort_filter (p : Z * string -> bool) (l : list (Z * string)) :
  stable_sort Acquisitions.chave_ltb (filter p l)
  = filter p (stable_sort Acquisitions.chave_ltb l).
Proof.
  apply (sorted_perm_unique Acquisitions.chave_ltb).
  - intros x y _ _. apply chave_ltb_total.
  - apply (stable_sort_sorted _ chave_ltb_asym chave_leb_trans).
  - apply filter_sorted.
    apply (stable_sort_sorted _ chave_ltb_asym chave_leb_trans).
  - rewrite <- (stable_sort_perm Acquisitions.chave_ltb (filter p l)).
    apply filter_perm, stable_sort_perm.
Qed.




Lemma filter_filter_sub {A : Type} (a b : A -> bool) (l : list A) :
  (forall x, a x = true -> b x = true) ->
  filter a (filter b l) = filter a l.
Proof.
  intros H. induction l as [|x l IH]; [reflexivity|]. cbn [filter].
  destruct (b x) eqn:Eb; cbn [filter]; rewrite IH; [reflexivity|].
  destruct (a x) eqn:Ea; [|reflexivity].
  rewrite (H x Ea) in Eb. discriminate Eb.
Qed.

Lemma filter_map_comm {A B : Type} (q : B -> bool) (f : A -> B)
    (l : list A) :
  filter q (map f l) = map f (filter (fun x => q (f x)) l).
Proof.
  induction l as [|x l IH]; [reflexivity|]. cbn [map filter].
  destruct (q (f x)); cbn [map]; now rewrite IH.
Qed.

Lemma chaves_filter (values : list cell) (df : list Acquisitions.row) :
  Acquisitions.chaves
    (filter (fun r => Acquisitions.isin values (Acquisitions.medicamento r))
            df)
  = filter (fun k => Acquisitions.isin values (Txt (snd k)))
           (Acquisitions.chaves df).
Proof.
  unfold Acquisitions.chaves.
  induction df as [|r df IH]; [reflexivity|]. cbn [filter flat_map].
  unfold Acquisitions.chave at 2.
  destruct (Acquisitions.medicamento r) as [|m] eqn:E.
  - cbn [app]. rewrite <- IH.
    destruct (Acquisitions.isin values NA); [|reflexivity].
    cbn [flat_map]. unfold Acquisitions.chave at 1. now rewrite E.
  - cbn [app filter snd].
    destruct (Acquisitions.isin values (Txt m)); rewrite <- IH;
      [|reflexivity].
    cbn [flat_map]. unfold Acquisitions.chave at 1. now rewrite E.
Qed.

(** X22.  The third chart of the acquisitions page is the second one cut
    down to the selection: for a selection that is not empty its lines are
    the segments of the composition whose medicine is selected, with the
    same sums and in the same order; for an empty selection nothing is
    computed. *)
Theorem df_meds_restricts (df : list Acquisitions.row)
    (meds_selecionados : list cell) :
  Acquisitions.df_meds df meds_selecionados
  = match meds_selecionados with
    | [] => None
    | _ =>
        Some (filter (fun g => Acquisitions.isin meds_selecionados
                                 (Txt (snd (fst g))))
                     (Acquisitions.comp_anual_medicamento df))
    end.
Proof.
  destruct meds_selecionados as [|c sel]; [reflexivity|].
  unfold Acquisitions.df_meds. cbv beta iota. f_equal.
  generalize (c :: sel). intros values.
  unfold Acquisitions.comp_anual_medicamento,
    Acquisitions.groupby_ano_medicamento.
  rewrite chaves_filter.
  pose proof (unique_from_filter Acquisitions.chave_eqb chave_eqb_eq
                (fun k => Acquisitions.isin values (Txt (snd k)))
                [] (Acquisitions.chaves df)) as Hu.
  cbn [filter] in Hu. unfold unique. rewrite Hu.
  rewrite chave_sort_filter, filter_map_comm. cbn [fst].
  apply map_ext_in. intros k Hk. apply filter_In in Hk as [_ Hk].
  f_equal. f_equal. f_equal. apply filter_filter_sub.
  intros r Hr. unfold Acquisitions.tem_chave, Acquisitions.chave in Hr.
  destruct (Acquisitions.medicamento r) as [|m]; [discriminate Hr|].
  apply chave_eqb_eq in Hr. subst k. exact Hk.
Qed.

(** ** The monthly series of the services *)

Lemma date_eqb_eq (d e : Hemo8R.date) : Hemo8R.date_eqb d e = true <-> d = e.
Proof.
  destruct d as [y m d], e as [y' m' d']. unfold Hemo8R.date_eqb.
  cbn [Hemo8R.year Hemo8R.month Hemo8R.day].
  rewrite !andb_true_iff, !Z.eqb_eq. split.
  - intros [[-> ->] ->]. reflexivity.
  - intros E. injection E as -> -> ->. auto.
Qed.

Lemma date_ltb_asym (x y : Hemo8R.date) :
  Hemo8R.date_ltb x y = true -> Hemo8R.date_ltb y x = false.
Proof. rewrite date_ltb_spec, date_ltb_false. lia. Qed.

Lemma date_leb_trans (x y z : Hemo8R.date) :
  Hemo8R.date_ltb y x = false -> Hemo8R.date_ltb z y = false ->
  Hemo8R.date_ltb z x = false.
Proof. rewrite !date_ltb_false. lia. Qed.

Lemma date_ltb_total (x y : Hemo8R.date) :
  Hemo8R.date_ltb x y = false -> Hemo8R.date_ltb y x = false -> x = y.
Proof.
  rewrite !date_ltb_false. destruct x as [a b c], y as [a' b' c'].
  cbn [Hemo8R.year Hemo8R.month Hemo8R.day]. intros H1 H2.
  assert (a = a') by lia. assert (b = b') by lia. assert (c = c') by lia.
  now subst.
Qed.

Lemma periodos_sorted (df : list Hemo8R.row) :
  StronglySorted (fun x y => Hemo8R.date_ltb x y = true)
    (stable_sort Hemo8R.date_ltb
       (unique Hemo8R.date_eqb (map Hemo8R.periodo df))).
Proof.
  set (l := unique Hemo8R.date_eqb (map Hemo8R.periodo df)).
  assert (Hnd : NoDup (stable_sort Hemo8R.date_ltb l)).
  { apply (Permutation_NoDup (stable_sort_perm _ _)).
    apply (unique_from_NoDup _ date_eqb_eq []). }
  pose proof (stable_sort_sorted _ date_ltb_asym date_leb_trans l) as Hs.
  induction Hs as [|x l' Hs IH Hx]; constructor.
  - apply IH. now inversion Hnd.
  - inversion Hnd as [|? ? Hnin _]; subst.
    rewrite Forall_forall in *. intros y Hy. specialize (Hx y Hy).
    destruct (Hemo8R.date_ltb x y) eqn:E; [reflexivity|].
    exfalso. apply Hnin. now rewrite (date_ltb_total x y E Hx).
Qed.

Lemma Zsum_app (l1 l2 : list Z) :
  fold_right Z.add 0 (l1 ++ l2)
  = fold_right Z.add 0 l1 + fold_right Z.add 0 l2.
Proof. induction l1 as [|x l1 IH]; cbn; [reflexivity | lia]. Qed.

Lemma Zsum_perm (l l' : list Z) :
  Permutation l l' -> fold_right Z.add 0 l = fold_right Z.add 0 l'.
Proof. induction 1; cbn; lia. Qed.

Lemma Zsum_flat_map {A : Type} (F : A -> list Z) (ks : list A) :
  fold_right Z.add 0 (flat_map F ks)
  = fold_right Z.add 0 (map (fun k => fold_right Z.add 0 (F k)) ks).
Proof.
  induction ks as [|k ks IH]; [reflexivity|].
  cbn [flat_map map fold_right]. now rewrite Zsum_app, IH.
Qed.

Lemma groupby_periodo_column (df : list Hemo8R.row)
    (col : Hemo8R.base_row -> Z) :
  fold_right Z.add 0
    (map (fun p =>
            fold_right Z.add 0
              (map (fun r => col (Hemo8R.base r))
                   (filter (fun r => Hemo8R.date_eqb (Hemo8R.periodo r) p)
                           df)))
         (stable_sort Hemo8R.date_ltb
            (unique Hemo8R.date_eqb (map Hemo8R.periodo df))))
  = fold_right Z.add 0 (map (fun r => col (Hemo8R.base r)) df).
Proof.
  set (ks := stable_sort Hemo8R.date_ltb
               (unique Hemo8R.date_eqb (map Hemo8R.periodo df))).
  rewrite <- (Zsum_flat_map
                (fun p => map (fun r => col (Hemo8R.base r))
                              (filter (fun r => Hemo8R.date_eqb
                                                  (Hemo8R.periodo r) p)
                                      df))).
  rewrite <- map_flat_map. apply Zsum_perm, Permutation_map.
  pose proof (partition_perm Hemo8R.date_eqb date_eqb_eq
                (fun r => Some (Hemo8R.periodo r)) ks df) as HP.
  cbn beta iota in HP. rewrite HP.
  - now rewrite filter_all.
  - apply (Permutation_NoDup (stable_sort_perm _ _)).
    apply (unique_from_NoDup _ date_eqb_eq []).
  - intros r k Hr E. injection E as <-.
    apply (Permutation_in _ (stable_sort_perm _ _)).
    apply (proj2 (unique_In _ date_eqb_eq _ _)). now apply in_map.
Qed.

(** X23.  The monthly series has one point for each period that the
    table has, the periods in ascending order, and sorting its index
    changes nothing, whatever sort it is.  Every row has a period, so no
    unit is left out: each UI column of the series adds up to the column of
    the table, and the column of the totals to the metric of the volume. *)
Theorem monthly_series (quicksort : sorter Hemo8R.mes_ltb)
    (df : list Hemo8R.row) :
  Hemo8R.monthly quicksort df = Hemo8R.groupby_periodo df
  /\ StronglySorted (fun x y => Hemo8R.date_ltb x y = true)
                    (map fst (Hemo8R.monthly quicksort df))
  /\ (forall p, In p (map fst (Hemo8R.monthly quicksort df))
                <-> exists r, In r df /\ Hemo8R.periodo r = p)
  /\ (forall i, (i < 5)%nat ->
        fold_right Z.add 0
          (map (fun g => nth i (snd g) 0) (Hemo8R.monthly quicksort df))
        = nth i (Hemo8R.sum_ui df) 0)
  /\ (forall k, Hemo8R.services_kpis df = Ok k ->
        fold_right Z.add 0
          (map (fun g => nth 4 (snd g) 0) (Hemo8R.monthly quicksort df))
        = Hemo8R.Volume_total k).
Proof.
  set (ks := stable_sort Hemo8R.date_ltb
               (unique Hemo8R.date_eqb (map Hemo8R.periodo df))).
  assert (Hfst : map fst (Hemo8R.groupby_periodo df) = ks)
    by (unfold Hemo8R.groupby_periodo; rewrite map_map; cbn [fst];
        apply map_id).
  assert (Hs : StronglySorted (fun x y => Hemo8R.date_ltb x y = true) ks)
    by apply periodos_sorted.
  assert (E : Hemo8R.monthly quicksort df = Hemo8R.groupby_periodo df).
  { unfold Hemo8R.monthly.
    assert (Hm : forall x y, Hemo8R.mes_ltb x y = true ->
                             Hemo8R.mes_ltb y x = false)
      by (intros x y; apply date_ltb_asym).
    assert (Ht : forall x y z, Hemo8R.mes_ltb y x = false ->
                               Hemo8R.mes_ltb z y = false ->
                               Hemo8R.mes_ltb z x = false)
      by (intros x y z; apply date_leb_trans).
    rewrite (sorter_unique _ Hm Ht).
    - apply stable_sort_id. unfold Hemo8R.groupby_periodo. fold ks.
      clear Hfst. induction Hs as [|p ps Hs IH Hp]; cbn [map];
        constructor; [exact IH|].
      rewrite Forall_forall in *. intros y Hy.
      apply in_map_iff in Hy as [p' [<- Hp']].
      unfold Hemo8R.mes_ltb. cbn [fst]. apply date_ltb_asym. now apply Hp.
    - intros x y Hx Hy H1 H2. unfold Hemo8R.mes_ltb in H1, H2.
      pose proof (date_ltb_total _ _ H1 H2) as Ef.
      unfold Hemo8R.groupby_periodo in Hx, Hy.
      apply in_map_iff in Hx as [kx [<- _]].
      apply in_map_iff in Hy as [ky [<- _]].
      cbn [fst] in Ef. now subst. }
  assert (Hcol : forall i, (i < 5)%nat ->
             fold_right Z.add 0
               (map (fun g => nth i (snd g) 0) (Hemo8R.groupby_periodo df))
             = nth i (Hemo8R.sum_ui df) 0).
  { intros i Hi. unfold Hemo8R.groupby_periodo. fold ks.
    rewrite map_map. cbn [snd]. unfold Hemo8R.sum_ui, Hemo8R.ui_fields.
    destruct i as [|[|[|[|[|i]]]]]; [..|lia]; cbn [map nth];
      apply groupby_periodo_column. }
  rewrite E. split; [reflexivity|]. split; [now rewrite Hfst|].
  split; [|split].
  - intros p. rewrite Hfst. unfold ks. split.
    + intros H.
      apply (Permutation_in _ (Permutation_sym (stable_sort_perm _ _))) in H.
      apply (proj1 (unique_In _ date_eqb_eq _ _)) in H.
      apply in_map_iff in H as [r [<- Hr]]. now exists r.
    + intros [r [Hr <-]]. apply (Permutation_in _ (stable_sort_perm _ _)).
      apply (proj2 (unique_In _ date_eqb_eq _ _)). now apply in_map.
  - exact Hcol.
  - intros k Hk. rewrite (Hcol 4%nat) by lia.
    unfold Hemo8R.services_kpis in Hk.
    destruct (Hemo8R.strftime (Hemo8R.min_periodo df)) as [de|];
      [|discriminate Hk].
    destruct (Hemo8R.strftime (Hemo8R.max_periodo df)) as [ate|];
      [|discriminate Hk].
    cbn [bind] in Hk. injection Hk as <-. reflexivity.
Qed.

(** ** The totals as the pages print them *)















(** ** The counts among the metrics of the acquisitions page *)

Lemma filter_not_na (l : list cell) :
  existsb Acquisitions.is_na l = false ->
  filter (fun c => negb (Acquisitions.is_na c)) l = l.
Proof.
  intros H. apply filter_all. intros c Hc.
  destruct (Acquisitions.is_na c) eqn:E; [|reflexivity].
  assert (Hx : existsb Acquisitions.is_na l = true)
    by (apply existsb_exists; now exists c).
  congruence.
Qed.

Lemma filter_all_na (l : list cell) :
  forallb Acquisitions.is_na l = true ->
  filter (fun c => negb (Acquisitions.is_na c)) l = [].
Proof.
  induction l as [|c l IH]; [reflexivity|]. cbn [forallb filter].
  intros H. apply andb_prop in H as [Hc Hl]. rewrite Hc. now apply IH.
Qed.

(** X25.  The two counts among the metrics agree with the charts below
    them: the metric of the years is the number of bars of the first
    chart, and the metric of the distinct medicines is the number of
    options of the selector when every chosen row names a medicine; when
    none does the metric is 0, although the selector then offers the
    missing name. *)
Theorem painel_counts (quicksort : sorter Acquisitions.ano_ltb)
    (df : list Acquisitions.row) (intervalo : Z * Z)
    (p : Acquisitions.painel) :
  Acquisitions.render df intervalo = Ok p ->
  Acquisitions.num_anos p
  = List.length
      (Acquisitions.total_anual quicksort
         (Acquisitions.filtrar df intervalo))
  /\ (existsb Acquisitions.is_na
        (map Acquisitions.medicamento (Acquisitions.filtrar df intervalo))
      = false ->
      Acquisitions.num_medicamentos p
      = List.length (Acquisitions.meds_disponiveis p))
  /\ (forallb Acquisitions.is_na
        (map Acquisitions.medicamento (Acquisitions.filtrar df intervalo))
      = true ->
      Acquisitions.num_medicamentos p = O).
Proof.
  unfold Acquisitions.render. intros H.
  set (rows := Acquisitions.filtrar df intervalo) in *.
  destruct (Num.py_int (Num.sum (map Acquisitions.Quantidade rows)))
    as [t|]; [|discriminate H].
  cbn [bind] in H. unfold Acquisitions.sorted_cells in H.
  destruct (existsb Acquisitions.is_na _ && existsb _ _);
    [discriminate H|].
  cbn [bind] in H. injection H as <-.
  cbn [Acquisitions.num_anos Acquisitions.num_medicamentos
       Acquisitions.meds_disponiveis].
  split; [|split].
  - unfold Acquisitions.total_anual, Acquisitions.groupby_ano.
    rewrite <- (Permutation_length (argsort_perm _ quicksort _)).
    rewrite length_map.
    now rewrite <- (Permutation_length (stable_sort_perm Z.ltb _)).
  - intros Hna. unfold Acquisitions.nunique_cells.
    rewrite (filter_not_na _ Hna).
    now rewrite <- (Permutation_length (stable_sort_perm _ _)).
  - intros Hall. unfold Acquisitions.nunique_cells.
    now rewrite (filter_all_na _ Hall).
Qed.

Lemma painel_counts_witness :
  Acquisitions.num_anos
    (Acquisitions.mk_painel 4334 2 2
       [Txt "Fator IX"; Txt "Fator VIII"] [Txt "Fator IX"; Txt "Fator VIII"])
  = List.length
      (Acquisitions.total_anual
         (insertion_sorter Acquisitions.ano_ltb ano_ltb_asym ano_leb_trans)
         (Acquisitions.filtrar
            [ Acquisitions.mk_row (Txt "Fator IX") 2019 (Num.of_Z 0);
              Acquisitions.mk_row (Txt "Fator VIII") 2019 (Fin (30864 # 25));
              Acquisitions.mk_row (Txt "Fator IX") 2020 (Num.of_Z 0);
              Acquisitions.mk_row (Txt "Fator VIII") 2020 (Num.of_Z 3100) ]
            (2019, 2020)))
  /\ (existsb Acquisitions.is_na
        (map Acquisitions.medicamento
           (Acquisitions.filtrar
              [ Acquisitions.mk_row (Txt "Fator IX") 2019 (Num.of_Z 0);
                Acquisitions.mk_row (Txt "Fator VIII") 2019 (Fin (30864 # 25));
                Acquisitions.mk_row (Txt "Fator IX") 2020 (Num.of_Z 0);
                Acquisitions.mk_row (Txt "Fator VIII") 2020 (Num.of_Z 3100) ]
              (2019, 2020)))
      = false ->
      Acquisitions.num_medicamentos
        (Acquisitions.mk_painel 4334 2 2
           [Txt "Fator IX"; Txt "Fator VIII"]
           [Txt "Fator IX"; Txt "Fator VIII"])
      = List.length
          (Acquisitions.meds_disponiveis
             (Acquisitions.mk_painel 4334 2 2
                [Txt "Fator IX"; Txt "Fator VIII"]
                [Txt "Fator IX"; Txt "Fator VIII"])))
  /\ (forallb Acquisitions.is_na
        (map Acquisitions.medicamento
           (Acquisitions.filtrar
              [ Acquisitions.mk_row (Txt "Fator IX") 2019 (Num.of_Z 0);
                Acquisitions.mk_row (Txt "Fator VIII") 2019 (Fin (30864 # 25));
                Acquisitions.mk_row (Txt "Fator IX") 2020 (Num.of_Z 0);
                Acquisitions.mk_row (Txt "Fator VIII") 2020 (Num.of_Z 3100) ]
              (2019, 2020)))
      = true ->
      Acquisitions.num_medicamentos
        (Acquisitions.mk_painel 4334 2 2
           [Txt "Fator IX"; Txt "Fator VIII"]
           [Txt "Fator IX"; Txt "Fator VIII"])
      = O).
Proof.
  apply (painel_counts
           (insertion_sorter Acquisitions.ano_ltb ano_ltb_asym ano_leb_trans)
           [ Acquisitions.mk_row (Txt "Fator IX") 2019 (Num.of_Z 0);
             Acquisitions.mk_row (Txt "Fator VIII") 2019 (Fin (30864 # 25));
             Acquisitions.mk_row (Txt "Fator IX") 2020 (Num.of_Z 0);
             Acquisitions.mk_row (Txt "Fator VIII") 2020 (Num.of_Z 3100) ]
           (2019, 2020)).
  vm_compute. reflexivity.
Defined.
